(** * The fictitious model for hyperparameter tuning

    An embedding of the closed-form metric model of
    [using-hyperdrive/Fictitious_Model_for_Hyperparameter_Tuning.ipynb] and of
    the search space of
    [using-hyperdrive/HyperDrive_MultiStep_Training_Pipeline.ipynb].

    The notebook evaluates its formulas with NumPy on float64 arrays, element
    by element.  The formulas are embedded twice.

    - [F64] is the code as it runs: binary64 values, the arithmetic of
      IEEE 754 computed exactly, and [np.exp] and [np.log10], which are
      library code, taken as parameters of which only the values fixed by
      IEEE 754 and by saturation are assumed (and, for the tie next to the
      peak of the accuracy, one value of [np.log10] to within 8 units in the
      last place).  It gives the exact results of the code where these
      decide them, ties and infinities included.
    - [Np] is the same formulas over [npfloat], a real number or one of the
      three special values [inf], [-inf], [nan], with the arithmetic of the
      reals on finite values: rounding, overflow and underflow are left out
      and the decimal constants are taken at their decimal value.  It is used
      for ranges and orders, on inputs far enough from a domain boundary and
      from each other for rounding not to change the answer. *)

From Stdlib Require Import Reals Lra Lia List String Floats.

Set Warnings "-inexact-float".
Import ListNotations.

Local Open Scope R_scope.

(** ** NumPy scalars *)

Inductive npfloat : Type :=
| Fin (r : R)
| PInf
| NInf
| NaN.

Definition is_finite (x : npfloat) : Prop :=
  match x with Fin _ => True | _ => False end.

Definition is_nan (x : npfloat) : Prop :=
  match x with NaN => True | _ => False end.

(** Sign of a real, as the special cases of IEEE-754 need it. *)
Inductive sign : Type := Neg | Zero | Pos.

Definition sgn (r : R) : sign :=
  if Rlt_dec 0 r then Pos else if Rlt_dec r 0 then Neg else Zero.

(** Decimal logarithm of a positive real, and the power [10 ** y]. *)
Definition Rlog10 (x : R) : R := ln x / ln 10.
Definition pow10 (y : R) : R := Rpower 10 y.

(** The operations of NumPy on [npfloat].  On finite values they are the
    operations of the reals; what binary64 adds to them (rounding, overflow
    to [inf], underflow to 0) is in [F64] below, and the statements made
    over [Np] keep to inputs where it does not change them. *)
Module Np.

(** [a + b] *)
Definition add (a b : npfloat) : npfloat :=
  match a, b with
  | NaN, _ | _, NaN => NaN
  | Fin x, Fin y => Fin (x + y)
  | PInf, NInf | NInf, PInf => NaN
  | PInf, _ | _, PInf => PInf
  | NInf, _ | _, NInf => NInf
  end.

(** [- a] *)
Definition neg (a : npfloat) : npfloat :=
  match a with
  | Fin x => Fin (- x)
  | PInf => NInf
  | NInf => PInf
  | NaN => NaN
  end.

(** [a - b] *)
Definition sub (a b : npfloat) : npfloat := add a (neg b).

(** An infinity scaled by a value of the given sign. *)
Definition scale_inf (positive : bool) (s : sign) : npfloat :=
  match s with
  | Zero => NaN
  | Pos => if positive then PInf else NInf
  | Neg => if positive then NInf else PInf
  end.

(** [a * b] *)
Definition mul (a b : npfloat) : npfloat :=
  match a, b with
  | NaN, _ | _, NaN => NaN
  | Fin x, Fin y => Fin (x * y)
  | PInf, Fin y => scale_inf true (sgn y)
  | NInf, Fin y => scale_inf false (sgn y)
  | Fin x, PInf => scale_inf true (sgn x)
  | Fin x, NInf => scale_inf false (sgn x)
  | PInf, PInf | NInf, NInf => PInf
  | PInf, NInf | NInf, PInf => NInf
  end.

(** [a / b]: a zero divisor gives an infinity or [nan] (NumPy warns, it does
    not raise). *)
Definition div (a b : npfloat) : npfloat :=
  match a, b with
  | NaN, _ | _, NaN => NaN
  | Fin x, Fin y =>
      match sgn y with
      | Zero => scale_inf true (sgn x)
      | _ => Fin (x / y)
      end
  | Fin _, _ => Fin 0
  | PInf, Fin y => match sgn y with Neg => NInf | _ => PInf end
  | NInf, Fin y => match sgn y with Neg => PInf | _ => NInf end
  | _, _ => NaN
  end.

(** [a ** 2] *)
Definition square (a : npfloat) : npfloat := mul a a.

(** [np.exp] *)
Definition exp (a : npfloat) : npfloat :=
  match a with
  | Fin x => Fin (Rtrigo_def.exp x)
  | PInf => PInf
  | NInf => Fin 0
  | NaN => NaN
  end.

(** [np.log10]: [-inf] at zero and [nan] below it, with a warning and no
    exception. *)
Definition log10 (a : npfloat) : npfloat :=
  match a with
  | Fin x =>
      match sgn x with
      | Pos => Fin (Rlog10 x)
      | Zero => NInf
      | Neg => NaN
      end
  | PInf => PInf
  | NInf | NaN => NaN
  end.

(** [a < b]: false as soon as one side is [nan]. *)
Definition lt (a b : npfloat) : Prop :=
  match a, b with
  | Fin x, Fin y => x < y
  | NInf, Fin _ | NInf, PInf | Fin _, PInf => True
  | _, _ => False
  end.

End Np.

Declare Scope np_scope.
Delimit Scope np_scope with np.
Bind Scope np_scope with npfloat.
Infix "+" := Np.add : np_scope.
Infix "-" := Np.sub : np_scope.
Infix "*" := Np.mul : np_scope.
Infix "/" := Np.div : np_scope.
Notation "a ^2" := (Np.square a) (at level 1, format "a ^2") : np_scope.
Notation "# r" := (Fin r) (at level 1, format "# r") : np_scope.

Local Open Scope np_scope.

(** ** Univariate building blocks

    Each definition is the right-hand side of the notebook's assignment, at
    one element of the array. *)

(** [precision = 0.1 + 0.9 / (1 + 5000 * np.exp(-20 * thr))] *)
Definition precision_of_threshold (thr : npfloat) : npfloat :=
  #0.1 + #0.9 / (#1 + #5000 * Np.exp (#(-20) * thr)).

(** [recall = 1 / (1 + 1e-5 * np.exp(20 * thr))] *)
Definition recall_of_threshold (thr : npfloat) : npfloat :=
  #1 / (#1 + #1e-5 * Np.exp (#20 * thr)).

(** [loss = 3 + 7 * np.exp(-0.05 * epoch)] *)
Definition loss_of_epoch (epoch : npfloat) : npfloat :=
  #3 + #7 * Np.exp (#(-0.05) * epoch).

(** [accuracy = 0.95 - 3 * (np.log10(3 - 0.025 * epoch)) ** 2] *)
Definition accuracy_of_epoch (epoch : npfloat) : npfloat :=
  #0.95 - #3 * (Np.log10 (#3 - #0.025 * epoch))^2.

(** [z = np.log10(lr); loss = 0.6 + (np.log10(0.9 - z)) ** 2] *)
Definition loss_of_lr (lr : npfloat) : npfloat :=
  let z := Np.log10 lr in
  #0.6 + (Np.log10 (#0.9 - z))^2.

(** [z = np.log10(lr); accuracy = 0.98 - (np.log10(0.7 - 0.5 * z)) ** 2] *)
Definition accuracy_of_lr (lr : npfloat) : npfloat :=
  let z := Np.log10 lr in
  #0.98 - (Np.log10 (#0.7 - #0.5 * z))^2.

(** ** The cells of the notebook

    A cell assigns values to global names and plots curves.  A name is
    resolved in the global namespace each time it is used, and a use of an
    unbound name, of a value of the wrong kind or of an index out of range
    raises an exception that stops the cell and leaves the namespace as it is
    then.  A cell is a computation over the namespace and the curves plotted
    so far, each curve a pair of the abscissas and the ordinates given to
    [plt.plot]; the calls that only decorate the figure ([plt.xlabel],
    [plt.xscale], [plt.legend], [plt.grid], [plt.show]) are left out. *)

Definition array : Type := list npfloat.
Definition curve : Type := (array * array)%type.

(** The values the cells bind: an array, a list of arrays, a list of strings,
    an integer. *)
Inductive value : Type :=
| VArray (a : array)
| VList (l : list array)
| VStrings (l : list string)
| VInt (n : nat).

Coercion VArray : array >-> value.

(** [Some a], for an array [a] where a value is expected, is [Some (VArray a)]. *)
Arguments Some {A} & a.

Definition namespace : Type := string -> option value.

Inductive exception : Type :=
| NameError (name : string)
| TypeError (name : string)
| IndexError (index : nat).

Record state : Type := {
  globals : namespace;
  plotted : list curve;
  legend : list string
}.

(** A computation of the notebook: from a state to a result or an exception,
    and the state reached. *)
Definition py (A : Type) : Type := state -> (exception + A) * state.

Definition ret {A : Type} (x : A) : py A := fun s => (inr x, s).

Definition raise {A : Type} (e : exception) : py A := fun s => (inl e, s).

Definition bind {A B : Type} (c : py A) (k : A -> py B) : py B :=
  fun s =>
    match c s with
    | (inr x, s') => k x s'
    | (inl e, s') => (inl e, s')
    end.

Declare Scope py_scope.
Delimit Scope py_scope with py.
Notation "x <- c ;; k" := (bind c (fun x => k))
  (at level 61, c at next level, right associativity) : py_scope.
Notation "c ;; k" := (bind c (fun _ => k))
  (at level 61, right associativity) : py_scope.

(** [name = value] *)
Definition assign (name : string) (v : value) (g : namespace) : namespace :=
  fun n => if String.eqb n name then Some v else g n.

Definition store (name : string) (v : value) : py unit :=
  fun s => (inr tt, {| globals := assign name v (globals s);
                       plotted := plotted s;
                       legend := legend s |}).

(** A use of [name]. *)
Definition load (name : string) : py value :=
  fun s =>
    match globals s name with
    | Some v => (inr v, s)
    | None => (inl (NameError name), s)
    end.

Definition load_array (name : string) : py array :=
  bind (load name) (fun v =>
    match v with VArray a => ret a | _ => raise (TypeError name) end).

Definition load_list (name : string) : py (list array) :=
  bind (load name) (fun v =>
    match v with VList l => ret l | _ => raise (TypeError name) end).

Definition load_strings (name : string) : py (list string) :=
  bind (load name) (fun v =>
    match v with VStrings l => ret l | _ => raise (TypeError name) end).

Definition load_int (name : string) : py nat :=
  bind (load name) (fun v =>
    match v with VInt n => ret n | _ => raise (TypeError name) end).

(** [l[i]] *)
Definition item {A : Type} (l : list A) (i : nat) : py A :=
  match nth_error l i with
  | Some x => ret x
  | None => raise (IndexError i)
  end.

(** [plt.plot(x, y, label=l)] *)
Definition plot (x y : array) (l : string) : py unit :=
  fun s => (inr tt, {| globals := globals s;
                       plotted := plotted s ++ [(x, y)];
                       legend := legend s ++ [l] |}).

(** [for i in range(n): body], the loop variable being a global name. *)
Fixpoint for_each (indices : list nat) (body : py unit) : py unit :=
  match indices with
  | [] => ret tt
  | i :: rest =>
      bind (store "i" (VInt i)) (fun _ => bind body (fun _ => for_each rest body))
  end.

Definition for_i_in_range (n : nat) (body : py unit) : py unit :=
  for_each (seq 0 n) body.

(** [np.arange(start, stop, step)], of [len = ceil((stop - start) / step)]
    elements [start + k * step]. *)
Definition arange (start step : R) (len : nat) : array :=
  map (fun k => #(start + INR k * step)) (seq 0 len).

(** [np.logspace(start, stop)]: [num = 50] exponents evenly spaced from
    [start] to [stop], both included, and 10 raised to each. *)
Definition logspace (start stop : R) (num : nat) : array :=
  map (fun k => #(pow10 (start + INR k * ((stop - start) / INR (num - 1)))))
      (seq 0 num).

Local Open Scope py_scope.

(** [plt.plot(x, ys[i], label=labels[i])], every name looked up. *)
Definition plot_ith (x ys : string) : py unit :=
  xs <- load_array x ;;
  curves <- load_list ys ;;
  i <- load_int "i" ;;
  y <- item curves i ;;
  labels <- load_strings "labels" ;;
  l <- item labels i ;;
  plot xs y l.

(** [for i in range(len(ys)): plt.plot(x, ys[i], label=labels[i])] *)
Definition plot_all (x ys : string) : py unit :=
  curves <- load_list ys ;;
  for_i_in_range (List.length curves) (plot_ith x ys).

(** Precision and recall against the threshold. *)
Definition cell_threshold_body : py unit :=
  store "thr" (VArray (arange 0 0.01 100)) ;;
  thr <- load_array "thr" ;;
  store "precision" (VArray (map precision_of_threshold thr)) ;;
  thr <- load_array "thr" ;;
  store "recall" (VArray (map recall_of_threshold thr)) ;;
  precision <- load_array "precision" ;;
  recall <- load_array "recall" ;;
  store "prec_rec" (VList [precision; recall]) ;;
  store "labels" (VStrings ["Precision"; "Recall"]%string) ;;
  plot_all "thr" "prec_rec".

(** Loss and accuracy against the epochs; the accuracy is plotted as
    [10 * accuracy]. *)
Definition cell_epoch_body : py unit :=
  store "epoch" (VArray (arange 0 1 100)) ;;
  epoch <- load_array "epoch" ;;
  store "loss" (VArray (map loss_of_epoch epoch)) ;;
  epoch <- load_array "epoch" ;;
  store "accuracy" (VArray (map accuracy_of_epoch epoch)) ;;
  loss <- load_array "loss" ;;
  accuracy <- load_array "accuracy" ;;
  store "los_acc_epoch" (VList [loss; map (Np.mul #10) accuracy]) ;;
  store "labels" (VStrings ["Loss"; "Accuracy (x10)"]%string) ;;
  plot_all "epoch" "los_acc_epoch".

(** Loss and accuracy against the learning rate. *)
Definition cell_lr_body : py unit :=
  store "lr" (VArray (logspace (-4) 0.8 50)) ;;
  lr <- load_array "lr" ;;
  store "z" (VArray (map Np.log10 lr)) ;;
  z <- load_array "z" ;;
  store "loss"
    (VArray (map (fun zi => #0.6 + (Np.log10 (#0.9 - zi))^2) z)) ;;
  z <- load_array "z" ;;
  store "accuracy"
    (VArray (map (fun zi => #0.98 - (Np.log10 (#0.7 - #0.5 * zi))^2) z)) ;;
  loss <- load_array "loss" ;;
  accuracy <- load_array "accuracy" ;;
  store "los_acc_lr" (VList [loss; accuracy]) ;;
  store "labels" (VStrings ["Loss"; "Accuracy"]%string) ;;
  plot_all "lr" "los_acc_lr".

Local Close Scope py_scope.

(** Running a cell in a namespace, on an empty figure. *)
Definition run_cell (body : py unit) (g : namespace)
  : (exception + unit) * state :=
  body {| globals := g; plotted := []; legend := [] |}.

(** The namespace a cell leaves and the curves it plots. *)
Definition after_cell (body : py unit) (g : namespace)
  : namespace * list curve :=
  let s := snd (run_cell body g) in (globals s, plotted s).

Definition cell_threshold : namespace -> namespace * list curve :=
  after_cell cell_threshold_body.

Definition cell_epoch : namespace -> namespace * list curve :=
  after_cell cell_epoch_body.

Definition cell_lr : namespace -> namespace * list curve :=
  after_cell cell_lr_body.

(** Every ordinate of every curve is a finite real. *)
Definition curves_finite (cs : list curve) : Prop :=
  Forall (fun c => Forall is_finite (snd c)) cs.

(** ** Outcome of an evaluation *)

(** The error of the specification: the function that failed and the inputs
    it failed on. *)
Inductive domain_error : Type :=
| DomainError (function : string) (inputs : list npfloat).

Inductive outcome (A : Type) : Type :=
| Returns (v : A)
| Raises (e : domain_error).

Arguments Returns {A} v.
Arguments Raises {A} e.

(** Evaluating one of the notebook's NumPy expressions at an element.  Under
    NumPy's default error state an invalid operation or a division by zero
    is a [RuntimeWarning]: the expression still yields its value and nothing
    is raised, so the outcome is always [Returns]. *)
Definition np_eval (f : npfloat -> npfloat) (x : npfloat) : outcome npfloat :=
  Returns (f x).

(** What the specification asks of an evaluation: a finite real, or an error
    reported to the caller. *)
Definition finite_or_error (o : outcome npfloat) : Prop :=
  match o with
  | Returns v => is_finite v
  | Raises _ => True
  end.

(** ** Data model *)

Record TuningParameters : Type := {
  threshold : R;
  epoch_count : R;
  learning_rate : R
}.

Record MetricWeights : Type := {
  k_accuracy : R;
  k_precision : R;
  k_recall : R;
  k_loss : R
}.

Definition default_weights : MetricWeights :=
  {| k_accuracy := 1; k_precision := 1; k_recall := 1; k_loss := 1 |}.

Record MetricResult : Type := {
  precision_value : npfloat;
  recall_value : npfloat;
  loss_value : npfloat;
  accuracy_value : npfloat;
  f1_value : npfloat
}.

(** Every metric of a result is a finite real. *)
Definition all_finite (m : MetricResult) : Prop :=
  is_finite (precision_value m) /\ is_finite (recall_value m) /\
  is_finite (loss_value m) /\ is_finite (accuracy_value m) /\
  is_finite (f1_value m).

(** ** Multivariate composition *)

Section Composition.

Variable w : MetricWeights.

(** Modelled from the spec: the multivariate accuracy.  The notebook gives
    the composition as an equation of a markdown cell and the training
    script that computes it is not among the sources; the product is taken
    left to right over the notebook's univariate functions. *)
Definition accuracy (epoch lr : npfloat) : npfloat :=
  #(k_accuracy w) * accuracy_of_epoch epoch * accuracy_of_lr lr.

(** Modelled from the spec: the multivariate precision (training script
    missing, see [accuracy]). *)
Definition precision (thr epoch lr : npfloat) : npfloat :=
  #(k_precision w) * precision_of_threshold thr * accuracy epoch lr.

(** Modelled from the spec: the multivariate recall (training script
    missing, see [accuracy]). *)
Definition recall (thr epoch lr : npfloat) : npfloat :=
  #(k_recall w) * recall_of_threshold thr * accuracy epoch lr.

(** Modelled from the spec: the multivariate loss (training script missing,
    see [accuracy]). *)
Definition loss (epoch lr : npfloat) : npfloat :=
  #(k_loss w) * loss_of_epoch epoch * loss_of_lr lr.

End Composition.

(** Modelled from the spec: the F1 score, whose code (the training script) is
    missing.  It is [2 * precision * recall / (precision + recall)], defined
    only when [precision + recall] is not zero, and signals the division by
    zero otherwise. *)
Definition f1 (p r : npfloat) : outcome npfloat :=
  match p + r with
  | Fin s =>
      match sgn s with
      | Zero => Raises (DomainError "f1" [p; r])
      | _ => Returns (#2 * p * r / (p + r))
      end
  | _ => Returns (#2 * p * r / (p + r))
  end.

(** Modelled from the spec: one evaluation of the Fictitious Metric
    Evaluator, from the tuning parameters and the weights to the five
    metrics.  An undefined logarithm is reported as a [DomainError] naming
    the function and its input, before anything is computed, and an error of
    [f1] is passed on to the caller. *)
Definition evaluate (p : TuningParameters) (w : MetricWeights)
  : outcome MetricResult :=
  let thr := #(threshold p) in
  let epoch := #(epoch_count p) in
  let lr := #(learning_rate p) in
  match sgn (3 - 0.025 * epoch_count p)%R with
  | Pos =>
      match sgn (learning_rate p),
            sgn (0.7 - 0.5 * Rlog10 (learning_rate p))%R,
            sgn (0.9 - Rlog10 (learning_rate p))%R with
      | Pos, Pos, Pos =>
          let pr := precision w thr epoch lr in
          let rc := recall w thr epoch lr in
          match f1 pr rc with
          | Raises e => Raises e
          | Returns f =>
              Returns {| precision_value := pr;
                         recall_value := rc;
                         loss_value := loss w epoch lr;
                         accuracy_value := accuracy w epoch lr;
                         f1_value := f |}
          end
      | Pos, Pos, _ => Raises (DomainError "loss_of_lr" [lr])
      | _, _, _ => Raises (DomainError "accuracy_of_lr" [lr])
      end
  | _ => Raises (DomainError "accuracy_of_epoch" [epoch])
  end.

Local Close Scope np_scope.

(** ** Search space of the pipeline *)

(** [choice(v1, v2, ...)]: a discrete set of values of one parameter. *)
Definition choice (values : list R) : list R := values.

(** The dictionary given to [GridParameterSampling]. *)
Definition ps_thr : list R := choice [0.05; 0.20].
Definition ps_epoch : list R := choice [1; 20].
Definition ps_lr : list R := choice [0.0001; 0.001].

(** Grid sampling enumerates every combination of the choices. *)
Definition GridParameterSampling (thrs epochs lrs : list R)
  : list TuningParameters :=
  flat_map (fun t =>
    flat_map (fun e =>
      map (fun l =>
        {| threshold := t; epoch_count := e; learning_rate := l |}) lrs)
      epochs)
    thrs.

Definition ps : list TuningParameters :=
  GridParameterSampling ps_thr ps_epoch ps_lr.

(** ** Domains and closed forms *)

(** The documented domain of each function with a logarithm. *)
Definition accuracy_of_epoch_domain (epoch : R) : Prop :=
  0 < 3 - 0.025 * epoch.

Definition loss_of_lr_domain (lr : R) : Prop :=
  0 < lr /\ Rlog10 lr < 0.9.

Definition accuracy_of_lr_domain (lr : R) : Prop :=
  0 < lr /\ 0.5 * Rlog10 lr < 0.7.

(** The closed forms of the specification, over the reals. *)
Module Closed.

Definition precision_of_threshold (thr : R) : R :=
  0.1 + 0.9 / (1 + 5000 * exp (-20 * thr)).

Definition recall_of_threshold (thr : R) : R :=
  1 / (1 + 1e-5 * exp (20 * thr)).

Definition loss_of_epoch (epoch : R) : R :=
  3 + 7 * exp (-0.05 * epoch).

Definition accuracy_of_epoch (epoch : R) : R :=
  0.95 - 3 * (Rlog10 (3 - 0.025 * epoch)) ^ 2.

Definition loss_of_lr (lr : R) : R :=
  0.6 + (Rlog10 (0.9 - Rlog10 lr)) ^ 2.

Definition accuracy_of_lr (lr : R) : R :=
  0.98 - (Rlog10 (0.7 - 0.5 * Rlog10 lr)) ^ 2.

End Closed.

(** ** The code in binary64 *)

Module F64.

Local Open Scope float_scope.

(** [np.exp] and [np.log10] on a binary64 value. *)
Record libm : Type := {
  exp : float -> float;
  log10 : float -> float
}.

(** What is assumed of them: the values IEEE 754 fixes at zero, at one,
    below zero, at [inf] and at [nan], and saturation, [exp] being [inf] from
    710 on (its largest finite value is at 709.78...) and 0 up to -746 (its
    least positive value is at -745.13...). *)
Record conforming (m : libm) : Prop := {
  exp_zero : exp m 0 = 1;
  exp_neg_zero : exp m neg_zero = 1;
  exp_overflow : forall x, (710 <=? x) = true -> exp m x = infinity;
  exp_underflow : forall x, (x <=? -746) = true -> exp m x = 0;
  log10_zero : log10 m 0 = neg_infinity;
  log10_neg_zero : log10 m neg_zero = neg_infinity;
  log10_one : log10 m 1 = 0;
  log10_negative : forall x, (x <? 0) = true -> log10 m x = nan;
  log10_infinity : log10 m infinity = infinity;
  log10_nan : log10 m nan = nan
}.

(** A property of the code whatever [np.exp] and [np.log10] compute, and one
    for every conforming pair. *)
Definition any_libm (P : libm -> Prop) : Prop := forall m, P m.
Definition every_libm (P : libm -> Prop) : Prop :=
  forall m, conforming m -> P m.

(** A coarse pair that conforms: the fixed values, and elsewhere
    [(1 + x / 1024) ** 1024] for [exp] and the binary exponent times
    [log10 2] for [log10].  It only shows that the assumptions can be met. *)
Definition coarse_exp (x : float) : float :=
  if 710 <=? x then infinity
  else if x <=? -746 then 0
  else if x =? 0 then 1
  else
    let y1 := 1 + x / 1024 in
    let y2 := y1 * y1 in let y3 := y2 * y2 in let y4 := y3 * y3 in
    let y5 := y4 * y4 in let y6 := y5 * y5 in let y7 := y6 * y6 in
    let y8 := y7 * y7 in let y9 := y8 * y8 in let y10 := y9 * y9 in
    y10 * y10.

Definition coarse_log10 (x : float) : float :=
  if x <? 0 then nan
  else if x =? 0 then neg_infinity
  else if x =? 1 then 0
  else if x =? infinity then infinity
  else if x =? x then
    let (_, e) := frshiftexp x in
    (of_uint63 e - 2101) * 0.3010299956639812
  else nan.

Definition coarse : libm := {| exp := coarse_exp; log10 := coarse_log10 |}.

(** The doubles up to [n] units in the last place above [c], and below it. *)
Fixpoint ulps_above (n : nat) (c : float) : list float :=
  match n with
  | O => nil
  | S k => next_up c :: ulps_above k (next_up c)
  end.

Fixpoint ulps_below (n : nat) (c : float) : list float :=
  match n with
  | O => nil
  | S k => next_down c :: ulps_below k (next_down c)
  end.

(** [y] is [c] to within [n] units in the last place. *)
Definition within_ulps (n : nat) (c y : float) : Prop :=
  In y (c :: ulps_above n c ++ ulps_below n c).

Section Formulas.

Variable m : libm.

Definition square (x : float) : float := x * x.

(** [0.1 + 0.9 / (1 + 5000 * np.exp(-20 * thr))] *)
Definition precision_of_threshold (thr : float) : float :=
  0.1 + 0.9 / (1 + 5000 * exp m (-20 * thr)).

(** [1 / (1 + 1e-5 * np.exp(20 * thr))] *)
Definition recall_of_threshold (thr : float) : float :=
  1 / (1 + 1e-5 * exp m (20 * thr)).

(** [3 + 7 * np.exp(-0.05 * epoch)] *)
Definition loss_of_epoch (epoch : float) : float :=
  3 + 7 * exp m (-0.05 * epoch).

(** [0.95 - 3 * (np.log10(3 - 0.025 * epoch)) ** 2] *)
Definition accuracy_of_epoch (epoch : float) : float :=
  0.95 - 3 * square (log10 m (3 - 0.025 * epoch)).

(** [z = np.log10(lr); 0.6 + (np.log10(0.9 - z)) ** 2] *)
Definition loss_of_lr (lr : float) : float :=
  let z := log10 m lr in
  0.6 + square (log10 m (0.9 - z)).

(** [z = np.log10(lr); 0.98 - (np.log10(0.7 - 0.5 * z)) ** 2] *)
Definition accuracy_of_lr (lr : float) : float :=
  let z := log10 m lr in
  0.98 - square (log10 m (0.7 - 0.5 * z)).

End Formulas.

End F64.

(** ** Shapes and ranges *)

(** [a <= b]: false as soon as one side is [nan]. *)
Definition np_le (a b : npfloat) : Prop :=
  match a, b with
  | Fin x, Fin y => x <= y
  | NInf, Fin _ | NInf, PInf | Fin _, PInf | PInf, PInf | NInf, NInf => True
  | _, _ => False
  end.

(** A value strictly between 0 and 1. *)
Definition in_open_unit (v : npfloat) : Prop :=
  Np.lt (Fin 0) v /\ Np.lt v (Fin 1).

(** The four rates of a result lie strictly between 0 and 1 and its loss is
    positive. *)
Definition rates_valid (m : MetricResult) : Prop :=
  in_open_unit (precision_value m) /\ in_open_unit (recall_value m) /\
  in_open_unit (accuracy_value m) /\ in_open_unit (f1_value m) /\
  Np.lt (Fin 0) (loss_value m).


Definition returns_non_finite (o : outcome npfloat) : Prop :=
  match o with
  | Returns v => ~ is_finite v
  | Raises _ => False
  end.



(** [plt.plot(x, y)] needs as many abscissas as ordinates. *)
Definition same_length (c : curve) : Prop :=
  List.length (fst c) = List.length (snd c).


(** [a[k]], with [nan] standing for an index out of range (the lemmas below
    only read indices in range). *)
Definition element (a : array) (k : nat) : npfloat := nth k a NaN.

(** [max_total_runs] of the [HyperDriveConfig]. *)
Definition max_total_runs : nat := 300.

(** ** Signs *)

Lemma sgn_pos (r : R) : 0 < r -> sgn r = Pos.
Proof.
  intros H. unfold sgn.
  destruct (Rlt_dec 0 r); [reflexivity | contradiction].
Qed.

Lemma sgn_zero : sgn 0 = Zero.
Proof.
  unfold sgn. destruct (Rlt_dec 0 0) as [H | _]; [lra | reflexivity].
Qed.

Lemma sgn_neg (r : R) : r < 0 -> sgn r = Neg.
Proof.
  intros H. unfold sgn.
  destruct (Rlt_dec 0 r); [lra |].
  destruct (Rlt_dec r 0); [reflexivity | contradiction].
Qed.

(** ** Decimal logarithm *)

Lemma ln10_pos : 0 < ln 10.
Proof. rewrite <- ln_1. apply ln_increasing; lra. Qed.

Lemma Rlog10_1 : Rlog10 1 = 0.
Proof. unfold Rlog10. rewrite ln_1. pose proof ln10_pos. field. lra. Qed.

Lemma pow10_pos (y : R) : 0 < pow10 y.
Proof. unfold pow10, Rpower. apply exp_pos. Qed.

Lemma Rlog10_pow10 (y : R) : Rlog10 (pow10 y) = y.
Proof.
  unfold Rlog10, pow10. rewrite ln_Rpower.
  pose proof ln10_pos. field. lra.
Qed.

Lemma pow10_Rlog10 (x : R) : 0 < x -> pow10 (Rlog10 x) = x.
Proof.
  intros Hx. unfold Rlog10, pow10, Rpower.
  replace (ln x / ln 10 * ln 10) with (ln x)
    by (pose proof ln10_pos; field; lra).
  now apply exp_ln.
Qed.

Lemma Rlog10_increasing (x y : R) : 0 < x -> x < y -> Rlog10 x < Rlog10 y.
Proof.
  intros Hx Hxy. unfold Rlog10.
  apply Rmult_lt_compat_r.
  - apply Rinv_0_lt_compat, ln10_pos.
  - now apply ln_increasing.
Qed.

Lemma pow10_increasing (a b : R) : a < b -> pow10 a < pow10 b.
Proof.
  intros Hab. unfold pow10, Rpower. apply exp_increasing.
  pose proof ln10_pos. nra.
Qed.

Lemma Rlog10_lt_pow10 (x c : R) : 0 < x -> Rlog10 x < c <-> x < pow10 c.
Proof.
  intros Hx. split; intros H.
  - rewrite <- (pow10_Rlog10 x Hx). now apply pow10_increasing.
  - rewrite <- (Rlog10_pow10 c). now apply Rlog10_increasing.
Qed.

Lemma Rlog10_eq_pow10 (x c : R) : 0 < x -> Rlog10 x = c <-> x = pow10 c.
Proof.
  intros Hx. split; intros H.
  - rewrite <- H. symmetry. now apply pow10_Rlog10.
  - rewrite H. apply Rlog10_pow10.
Qed.

Lemma Rlog10_gt_pow10 (x c : R) : 0 < x -> c < Rlog10 x <-> pow10 c < x.
Proof.
  intros Hx. split; intros H.
  - rewrite <- (pow10_Rlog10 x Hx). now apply pow10_increasing.
  - rewrite <- (Rlog10_pow10 c). apply Rlog10_increasing; [apply pow10_pos | exact H].
Qed.

Lemma Rlog10_eq_0 (x : R) : 0 < x -> Rlog10 x = 0 -> x = 1.
Proof.
  intros Hx H. apply (Rlog10_eq_pow10 x 0 Hx) in H.
  rewrite H. unfold pow10, Rpower. rewrite Rmult_0_l. apply exp_0.
Qed.

(** [log10 (10 ** -n) = -n] *)
Lemma Rlog10_inv_pow (n : nat) : Rlog10 (/ 10 ^ n) = - INR n.
Proof.
  unfold Rlog10.
  assert (H10 : 0 < 10 ^ n) by (apply pow_lt; lra).
  rewrite ln_Rinv by exact H10.
  rewrite ln_pow by lra.
  pose proof ln10_pos. field. lra.
Qed.

Lemma Rlog10_0_0001 : Rlog10 0.0001 = -4.
Proof.
  replace 0.0001 with (/ 10 ^ 4) by lra.
  rewrite Rlog10_inv_pow. simpl. lra.
Qed.

Lemma Rlog10_0_001 : Rlog10 0.001 = -3.
Proof.
  replace 0.001 with (/ 10 ^ 3) by lra.
  rewrite Rlog10_inv_pow. simpl. lra.
Qed.

(** For [1 <= x] with [x * x < 10], the logarithm lies in [0, 1/2). *)
Lemma Rlog10_below_half (x : R) :
  1 <= x -> x * x < 10 -> 0 <= Rlog10 x < 0.5.
Proof.
  intros H1 Hsq. pose proof ln10_pos as H10.
  assert (Hx : 0 < x) by lra.
  assert (H0 : 0 <= ln x).
  { destruct H1 as [H1 | <-]; [| rewrite ln_1; lra].
    left. rewrite <- ln_1. apply ln_increasing; lra. }
  assert (H2 : ln x + ln x < ln 10).
  { rewrite <- ln_mult by lra. apply ln_increasing; nra. }
  unfold Rlog10. split.
  - apply Rmult_le_pos; [exact H0 | left; now apply Rinv_0_lt_compat].
  - apply (Rmult_lt_reg_r (ln 10)); [exact H10 |].
    replace (ln x / ln 10 * ln 10) with (ln x) by (field; lra). lra.
Qed.

(** ** The univariate functions at a finite input *)

Lemma log10_fin (x : R) : 0 < x -> Np.log10 (Fin x) = Fin (Rlog10 x).
Proof. intros H. unfold Np.log10. now rewrite sgn_pos. Qed.

Lemma log10_zero (x : R) : x = 0 -> Np.log10 (Fin x) = NInf.
Proof. intros ->. unfold Np.log10. now rewrite sgn_zero. Qed.

Lemma log10_negative (x : R) : x < 0 -> Np.log10 (Fin x) = NaN.
Proof. intros H. unfold Np.log10. now rewrite sgn_neg. Qed.

Lemma div_fin (x y : R) : y <> 0 -> Np.div (Fin x) (Fin y) = Fin (x / y).
Proof.
  intros H. unfold Np.div, sgn.
  destruct (Rlt_dec 0 y); [reflexivity |].
  destruct (Rlt_dec y 0); [reflexivity | lra].
Qed.

Ltac np_unfold :=
  unfold precision_of_threshold, recall_of_threshold, loss_of_epoch,
    accuracy_of_epoch, loss_of_lr, accuracy_of_lr,
    Np.square, Np.sub;
  cbv zeta.

Ltac np_step := cbn [Np.add Np.neg Np.mul Np.exp Np.scale_inf].

(** Rewrites the logarithm of a finite value whose sign [lra] can decide. *)
Ltac np_log :=
  first
    [ rewrite log10_fin by lra
    | rewrite log10_zero by lra
    | rewrite log10_negative by lra ];
  np_step.

Lemma precision_of_threshold_fin (thr : R) :
  precision_of_threshold (Fin thr) = Fin (Closed.precision_of_threshold thr).
Proof.
  np_unfold. np_step.
  pose proof (exp_pos (-20 * thr)).
  rewrite div_fin by lra. reflexivity.
Qed.

Lemma recall_of_threshold_fin (thr : R) :
  recall_of_threshold (Fin thr) = Fin (Closed.recall_of_threshold thr).
Proof.
  np_unfold. np_step.
  pose proof (exp_pos (20 * thr)).
  rewrite div_fin by lra. reflexivity.
Qed.

Lemma loss_of_epoch_fin (epoch : R) :
  loss_of_epoch (Fin epoch) = Fin (Closed.loss_of_epoch epoch).
Proof. reflexivity. Qed.

Lemma accuracy_of_epoch_fin (epoch : R) :
  accuracy_of_epoch_domain epoch ->
  accuracy_of_epoch (Fin epoch) = Fin (Closed.accuracy_of_epoch epoch).
Proof.
  unfold accuracy_of_epoch_domain. intros H.
  np_unfold. np_step. np_log.
  unfold Closed.accuracy_of_epoch. f_equal.
  replace (3 + - (0.025 * epoch)) with (3 - 0.025 * epoch) by lra. ring.
Qed.

(** At the edge of the domain the logarithm is [-inf] and the result [-inf]. *)
Lemma accuracy_of_epoch_edge (epoch : R) :
  3 - 0.025 * epoch = 0 -> accuracy_of_epoch (Fin epoch) = NInf.
Proof.
  intros H. np_unfold. np_step. np_log.
  rewrite sgn_pos by lra. reflexivity.
Qed.

(** Past the edge the logarithm is [nan] and so is the result. *)
Lemma accuracy_of_epoch_outside (epoch : R) :
  3 - 0.025 * epoch < 0 -> accuracy_of_epoch (Fin epoch) = NaN.
Proof. intros H. np_unfold. np_step. np_log. reflexivity. Qed.

Lemma loss_of_lr_fin (lr : R) :
  loss_of_lr_domain lr ->
  loss_of_lr (Fin lr) = Fin (Closed.loss_of_lr lr).
Proof.
  intros [Hlr Hz]. np_unfold. np_log. np_log.
  unfold Closed.loss_of_lr. f_equal.
  replace (0.9 + - Rlog10 lr) with (0.9 - Rlog10 lr) by lra. ring.
Qed.

Lemma loss_of_lr_edge (lr : R) :
  0 < lr -> Rlog10 lr = 0.9 -> loss_of_lr (Fin lr) = PInf.
Proof. intros Hlr Hz. np_unfold. np_log. np_log. reflexivity. Qed.

Lemma loss_of_lr_outside (lr : R) :
  0 < lr -> 0.9 < Rlog10 lr -> loss_of_lr (Fin lr) = NaN.
Proof. intros Hlr Hz. np_unfold. np_log. np_log. reflexivity. Qed.

(** [np.log10(0)] is [-inf], so [0.9 - z] is [inf] and so is the loss. *)
Lemma loss_of_lr_zero : loss_of_lr (Fin 0) = PInf.
Proof. np_unfold. np_log. reflexivity. Qed.

Lemma loss_of_lr_negative (lr : R) : lr < 0 -> loss_of_lr (Fin lr) = NaN.
Proof. intros H. np_unfold. np_log. reflexivity. Qed.

Lemma accuracy_of_lr_fin (lr : R) :
  accuracy_of_lr_domain lr ->
  accuracy_of_lr (Fin lr) = Fin (Closed.accuracy_of_lr lr).
Proof.
  intros [Hlr Hz]. np_unfold. np_log. np_log.
  unfold Closed.accuracy_of_lr. f_equal.
  replace (0.7 + - (0.5 * Rlog10 lr)) with (0.7 - 0.5 * Rlog10 lr) by lra. ring.
Qed.

Lemma accuracy_of_lr_edge (lr : R) :
  0 < lr -> 0.5 * Rlog10 lr = 0.7 -> accuracy_of_lr (Fin lr) = NInf.
Proof. intros Hlr Hz. np_unfold. np_log. np_log. reflexivity. Qed.

Lemma accuracy_of_lr_outside (lr : R) :
  0 < lr -> 0.7 < 0.5 * Rlog10 lr -> accuracy_of_lr (Fin lr) = NaN.
Proof. intros Hlr Hz. np_unfold. np_log. np_log. reflexivity. Qed.

Lemma accuracy_of_lr_zero : accuracy_of_lr (Fin 0) = NInf.
Proof.
  np_unfold. np_log. rewrite sgn_pos by lra. reflexivity.
Qed.

Lemma accuracy_of_lr_negative (lr : R) : lr < 0 -> accuracy_of_lr (Fin lr) = NaN.
Proof. intros H. np_unfold. np_log. reflexivity. Qed.

(** ** The code in binary64: fixed values *)

Lemma leb_exclusive (x : float) :
  (710 <=? x)%float = true -> (x <=? -746)%float = false.
Proof.
  rewrite !leb_spec.
  let a := eval vm_compute in (Prim2SF 710) in change (Prim2SF 710) with a.
  let a := eval vm_compute in (Prim2SF (-746)) in
    change (Prim2SF (-746)) with a.
  unfold SFleb, SFcompare.
  destruct (Prim2SF x) as [[] | [] | | [] mx ex]; cbv beta iota; congruence.
Qed.

(** The assumptions on [np.exp] and [np.log10] can be met. *)
Lemma coarse_conforming : F64.conforming F64.coarse.
Proof.
  constructor.
  - reflexivity.
  - reflexivity.
  - intros x H. unfold F64.coarse, F64.exp, F64.coarse_exp. now rewrite H.
  - intros x H. unfold F64.coarse, F64.exp, F64.coarse_exp.
    destruct (710 <=? x)%float eqn:E.
    + apply leb_exclusive in E. congruence.
    + now rewrite H.
  - reflexivity.
  - reflexivity.
  - reflexivity.
  - intros x H. unfold F64.coarse, F64.log10, F64.coarse_log10. now rewrite H.
  - reflexivity.
  - reflexivity.
Qed.

(** Where [3 - 0.025 * epoch] rounds to zero the accuracy is [-inf]. *)
Lemma f64_accuracy_of_epoch_zero (m : F64.libm) (epoch : float) :
  F64.conforming m -> (3 - 0.025 * epoch)%float = 0%float ->
  F64.accuracy_of_epoch m epoch = neg_infinity.
Proof.
  intros Hm H. unfold F64.accuracy_of_epoch.
  rewrite H, (F64.log10_zero m Hm). reflexivity.
Qed.

(** Where it is negative the accuracy is [nan]. *)
Lemma f64_accuracy_of_epoch_negative (m : F64.libm) (epoch : float) :
  F64.conforming m -> (3 - 0.025 * epoch <? 0)%float = true ->
  F64.accuracy_of_epoch m epoch = nan.
Proof.
  intros Hm H. unfold F64.accuracy_of_epoch.
  rewrite (F64.log10_negative m Hm _ H). reflexivity.
Qed.

(** ** Closed forms *)

(** [x ** b < 10 ** a] bounds the logarithm of [x] by [a / b]. *)
Lemma Rlog10_lt_ratio (x : R) (a b : nat) :
  0 < x -> (0 < b)%nat -> x ^ b < 10 ^ a -> Rlog10 x < INR a / INR b.
Proof.
  intros Hx Hb H. pose proof ln10_pos as H10.
  assert (HB : 0 < INR b) by now apply lt_0_INR.
  assert (Hl : INR b * ln x < INR a * ln 10).
  { rewrite <- !ln_pow by lra. apply ln_increasing; [now apply pow_lt | exact H]. }
  unfold Rlog10.
  apply (Rmult_lt_reg_r (ln 10 * INR b)); [now apply Rmult_lt_0_compat |].
  replace (ln x / ln 10 * (ln 10 * INR b)) with (INR b * ln x)
    by (field; lra).
  replace (INR a / INR b * (ln 10 * INR b)) with (INR a * ln 10)
    by (field; lra).
  exact Hl.
Qed.

(** [7.94 < 10 ** 0.9] and [25 < 10 ** 1.4], with room to spare. *)
Lemma Rlog10_7_94 : Rlog10 7.94 < 0.9.
Proof.
  replace 0.9 with (INR 9 / INR 10) by (simpl; lra).
  apply Rlog10_lt_ratio; [lra | lia | lra].
Qed.

Lemma Rlog10_25 : Rlog10 25 < 1.4.
Proof.
  replace 1.4 with (INR 7 / INR 5) by (simpl; lra).
  apply Rlog10_lt_ratio; [lra | lia | lra].
Qed.

Lemma loss_of_lr_domain_7_94 (lr : R) :
  0 < lr <= 7.94 -> loss_of_lr_domain lr.
Proof.
  intros [H0 H1]. split; [exact H0 |].
  apply Rle_lt_trans with (Rlog10 7.94); [| apply Rlog10_7_94].
  destruct H1 as [H1 | ->]; [left; now apply Rlog10_increasing | right; reflexivity].
Qed.

Lemma accuracy_of_lr_domain_25 (lr : R) :
  0 < lr <= 25 -> accuracy_of_lr_domain lr.
Proof.
  intros [H0 H1]. split; [exact H0 |].
  assert (Rlog10 lr <= Rlog10 25).
  { destruct H1 as [H1 | ->];
      [left; now apply Rlog10_increasing | right; reflexivity]. }
  pose proof Rlog10_25. lra.
Qed.




(** ** Multivariate composition *)

Lemma loss_of_lr_domain_accuracy (lr : R) :
  loss_of_lr_domain lr -> accuracy_of_lr_domain lr.
Proof. intros [H1 H2]. split; lra. Qed.

Section CompositionInDomain.

Variable w : MetricWeights.
Variables thr epoch lr : R.
Hypothesis Hepoch : accuracy_of_epoch_domain epoch.
Hypothesis Hlr : loss_of_lr_domain lr.

Lemma accuracy_fin :
  accuracy w (Fin epoch) (Fin lr)
  = Fin (k_accuracy w * Closed.accuracy_of_epoch epoch
         * Closed.accuracy_of_lr lr).
Proof.
  unfold accuracy.
  rewrite accuracy_of_epoch_fin by exact Hepoch.
  rewrite accuracy_of_lr_fin by now apply loss_of_lr_domain_accuracy.
  reflexivity.
Qed.

Lemma precision_fin :
  precision w (Fin thr) (Fin epoch) (Fin lr)
  = Fin (k_precision w * Closed.precision_of_threshold thr
         * (k_accuracy w * Closed.accuracy_of_epoch epoch
            * Closed.accuracy_of_lr lr)).
Proof.
  unfold precision. rewrite accuracy_fin, precision_of_threshold_fin.
  reflexivity.
Qed.

Lemma recall_fin :
  recall w (Fin thr) (Fin epoch) (Fin lr)
  = Fin (k_recall w * Closed.recall_of_threshold thr
         * (k_accuracy w * Closed.accuracy_of_epoch epoch
            * Closed.accuracy_of_lr lr)).
Proof.
  unfold recall. rewrite accuracy_fin, recall_of_threshold_fin.
  reflexivity.
Qed.

Lemma loss_fin :
  loss w (Fin epoch) (Fin lr)
  = Fin (k_loss w * Closed.loss_of_epoch epoch * Closed.loss_of_lr lr).
Proof.
  unfold loss. rewrite loss_of_epoch_fin, loss_of_lr_fin by exact Hlr.
  reflexivity.
Qed.

End CompositionInDomain.



(** ** Domain violations *)

Lemma pow10_0 : pow10 0 = 1.
Proof. unfold pow10, Rpower. rewrite Rmult_0_l. apply exp_0. Qed.

(** [accuracy_of_epoch] is finite exactly on its domain. *)
Lemma accuracy_of_epoch_finite_iff (epoch : R) :
  is_finite (accuracy_of_epoch (Fin epoch)) <-> accuracy_of_epoch_domain epoch.
Proof.
  unfold accuracy_of_epoch_domain. split.
  - intros H.
    destruct (Rtotal_order (3 - 0.025 * epoch) 0) as [Hn | [Hz | Hp]].
    + rewrite accuracy_of_epoch_outside in H by exact Hn. contradiction.
    + rewrite accuracy_of_epoch_edge in H by exact Hz. contradiction.
    + lra.
  - intros H. rewrite accuracy_of_epoch_fin by exact H. exact I.
Qed.

(** [loss_of_lr] is finite exactly on its domain. *)
Lemma loss_of_lr_finite_iff (lr : R) :
  is_finite (loss_of_lr (Fin lr)) <-> loss_of_lr_domain lr.
Proof.
  unfold loss_of_lr_domain. split.
  - intros H.
    destruct (Rtotal_order lr 0) as [Hn | [-> | Hp]].
    + rewrite loss_of_lr_negative in H by exact Hn. contradiction.
    + rewrite loss_of_lr_zero in H. contradiction.
    + split; [lra |].
      destruct (Rtotal_order (Rlog10 lr) 0.9) as [Hl | [He | Hg]].
      * exact Hl.
      * rewrite loss_of_lr_edge in H by (exact He || lra). contradiction.
      * rewrite loss_of_lr_outside in H by (exact Hg || lra). contradiction.
  - intros H. rewrite loss_of_lr_fin by exact H. exact I.
Qed.

(** [accuracy_of_lr] is finite exactly on its domain. *)
Lemma accuracy_of_lr_finite_iff (lr : R) :
  is_finite (accuracy_of_lr (Fin lr)) <-> accuracy_of_lr_domain lr.
Proof.
  unfold accuracy_of_lr_domain. split.
  - intros H.
    destruct (Rtotal_order lr 0) as [Hn | [-> | Hp]].
    + rewrite accuracy_of_lr_negative in H by exact Hn. contradiction.
    + rewrite accuracy_of_lr_zero in H. contradiction.
    + split; [lra |].
      destruct (Rtotal_order (0.5 * Rlog10 lr) 0.7) as [Hl | [He | Hg]].
      * exact Hl.
      * rewrite accuracy_of_lr_edge in H by (exact He || lra). contradiction.
      * rewrite accuracy_of_lr_outside in H by (exact Hg || lra). contradiction.
  - intros H. rewrite accuracy_of_lr_fin by exact H. exact I.
Qed.

(** C3, as stated, fails: at [epoch = 120] the argument of the logarithm is
    zero, and [accuracy_of_epoch] returns [-inf] without reporting anything. *)
Lemma accuracy_of_epoch_120_silent :
  np_eval accuracy_of_epoch (Fin 120) = Returns NInf /\
  ~ finite_or_error (np_eval accuracy_of_epoch (Fin 120)).
Proof.
  assert (H : accuracy_of_epoch (Fin 120) = NInf)
    by (apply accuracy_of_epoch_edge; lra).
  unfold np_eval. rewrite H. split; [reflexivity |].
  intros [].
Qed.

Lemma silent (f : npfloat -> npfloat) (x : npfloat) :
  ~ is_finite (f x) -> returns_non_finite (np_eval f x).
Proof. intros H. exact H. Qed.

(** C3, amended: no univariate function reports an error.  Precision and
    recall are finite at every input, the loss over the epochs from epoch
    -14000 on, and each function with a logarithm on its domain away from
    the boundary (an epoch up to 119.99, a learning rate in (0, 7.94] for the
    loss and in (0, 25] for the accuracy); outside its domain (an epoch from
    120 on, a learning rate at most 0, or at least [10 ** 0.9] for the loss
    and [10 ** 1.4] for the accuracy) it hands a non-finite value to the
    caller without a [DomainError]. *)
Theorem domain_violations_are_silent (x : R) :
  is_finite (precision_of_threshold (Fin x)) /\
  is_finite (recall_of_threshold (Fin x)) /\
  (-14000 <= x -> is_finite (loss_of_epoch (Fin x))) /\
  (x <= 119.99 -> is_finite (accuracy_of_epoch (Fin x))) /\
  (120 <= x -> returns_non_finite (np_eval accuracy_of_epoch (Fin x))) /\
  (0 < x <= 7.94 -> is_finite (loss_of_lr (Fin x))) /\
  (x <= 0 \/ pow10 0.9 <= x ->
   returns_non_finite (np_eval loss_of_lr (Fin x))) /\
  (0 < x <= 25 -> is_finite (accuracy_of_lr (Fin x))) /\
  (x <= 0 \/ pow10 1.4 <= x ->
   returns_non_finite (np_eval accuracy_of_lr (Fin x))).
Proof.
  pose proof (pow10_pos 0.9) as H9. pose proof (pow10_pos 1.4) as H14.
  repeat apply conj.
  - rewrite precision_of_threshold_fin. exact I.
  - rewrite recall_of_threshold_fin. exact I.
  - intros _. exact I.
  - intros H. apply accuracy_of_epoch_finite_iff.
    unfold accuracy_of_epoch_domain. lra.
  - intros H. apply silent. intros Hf.
    apply accuracy_of_epoch_finite_iff in Hf.
    unfold accuracy_of_epoch_domain in Hf. lra.
  - intros H. apply loss_of_lr_finite_iff. now apply loss_of_lr_domain_7_94.
  - intros H. apply silent. intros Hf.
    apply loss_of_lr_finite_iff in Hf. destruct Hf as [Hpos Hz].
    destruct H as [H | H]; [lra |].
    apply Rlog10_lt_pow10 in Hz; [lra | exact Hpos].
  - intros H. apply accuracy_of_lr_finite_iff.
    now apply accuracy_of_lr_domain_25.
  - intros H. apply silent. intros Hf.
    apply accuracy_of_lr_finite_iff in Hf. destruct Hf as [Hpos Hz].
    destruct H as [H | H]; [lra |].
    assert (Hz' : Rlog10 x < 1.4) by lra.
    apply Rlog10_lt_pow10 in Hz'; [lra | exact Hpos].
Qed.

Lemma domain_violations_are_silent_witness :
  is_finite (accuracy_of_epoch (Fin 100)) /\
  returns_non_finite (np_eval accuracy_of_epoch (Fin 121)) /\
  returns_non_finite (np_eval loss_of_lr (Fin 0)).
Proof.
  split; [| split].
  - apply (domain_violations_are_silent 100). lra.
  - apply (domain_violations_are_silent 121). lra.
  - apply (domain_violations_are_silent 0). left. lra.
Defined.

(** C5, as stated, fails: at [lr = 10 ** 0.9] the inner logarithm is [0.9],
    the outer one is taken at zero, and [loss_of_lr] returns [inf] without
    reporting anything. *)
Lemma loss_of_lr_boundary_silent :
  np_eval loss_of_lr (Fin (pow10 0.9)) = Returns PInf /\
  ~ (exists e, np_eval loss_of_lr (Fin (pow10 0.9)) = Raises e).
Proof.
  split.
  - unfold np_eval. f_equal.
    apply loss_of_lr_edge; [apply pow10_pos | apply Rlog10_pow10].
  - intros [e H]. discriminate H.
Qed.

(** C5, amended: [loss_of_lr] never reports an error.  From [lr = 10 ** 0.9]
    on it hands a non-finite value ([inf] or [nan]) to the caller; for a
    learning rate in (0, 7.94] it returns the finite value of the closed
    form; between 7.94 and [10 ** 0.9] the value is finite over the reals,
    and the code, which rounds, may already return [inf]. *)
Theorem loss_of_lr_boundary (lr : R) :
  (pow10 0.9 <= lr -> returns_non_finite (np_eval loss_of_lr (Fin lr))) /\
  (0 < lr <= 7.94 ->
   np_eval loss_of_lr (Fin lr)
   = Returns (Fin (0.6 + (Rlog10 (0.9 - Rlog10 lr)) ^ 2))).
Proof.
  pose proof (pow10_pos 0.9) as Hb.
  split.
  - intros H. apply silent. intros Hf.
    apply loss_of_lr_finite_iff in Hf. destruct Hf as [Hpos Hz].
    apply Rlog10_lt_pow10 in Hz; [lra | exact Hpos].
  - intros H. unfold np_eval. f_equal.
    apply loss_of_lr_fin. now apply loss_of_lr_domain_7_94.
Qed.

Lemma loss_of_lr_boundary_witness :
  np_eval loss_of_lr (Fin 1)
  = Returns (Fin (0.6 + (Rlog10 (0.9 - Rlog10 1)) ^ 2)).
Proof.
  apply (loss_of_lr_boundary 1). lra.
Defined.

(** ** The F1 score *)

Lemma f1_defined (p r : R) :
  p + r <> 0 -> f1 (Fin p) (Fin r) = Returns (Fin (2 * p * r / (p + r))).
Proof.
  intros H. unfold f1. cbn [Np.add Np.mul].
  rewrite div_fin by exact H.
  destruct (Rtotal_order (p + r) 0) as [Hn | [Hz | Hp]].
  - now rewrite sgn_neg.
  - contradiction.
  - now rewrite sgn_pos.
Qed.

Lemma f1_division_by_zero (p r : R) :
  p + r = 0 -> f1 (Fin p) (Fin r) = Raises (DomainError "f1" [Fin p; Fin r]).
Proof.
  intros H. unfold f1. cbn [Np.add]. rewrite H, sgn_zero. reflexivity.
Qed.

(** C4: [f1 p p] is [p] for a positive [p]; [f1 p r] is
    [2 * p * r / (p + r)] whenever [p + r] is not zero; and the division by
    zero is signalled exactly when [p + r] is zero, as at [p = r = 0]. *)
Theorem f1_spec (p r : R) :
  (0 < p -> f1 (Fin p) (Fin p) = Returns (Fin p)) /\
  (p + r <> 0 -> f1 (Fin p) (Fin r) = Returns (Fin (2 * p * r / (p + r)))) /\
  ((exists e, f1 (Fin p) (Fin r) = Raises e) <-> p + r = 0) /\
  f1 (Fin 0) (Fin 0) = Raises (DomainError "f1" [Fin 0; Fin 0]).
Proof.
  repeat apply conj.
  - intros Hp. rewrite f1_defined by lra. do 2 f_equal. field. lra.
  - apply f1_defined.
  - intros [e He]. destruct (Req_dec (p + r) 0) as [H | H]; [exact H |].
    rewrite f1_defined in He by exact H. discriminate He.
  - intros H. eexists. now apply f1_division_by_zero.
  - apply f1_division_by_zero. lra.
Qed.

Lemma f1_spec_witness :
  f1 (Fin 0.5) (Fin 0.5) = Returns (Fin 0.5) /\
  f1 (Fin 0.5) (Fin 0.25) = Returns (Fin (2 * 0.5 * 0.25 / (0.5 + 0.25))).
Proof.
  split.
  - apply (proj1 (f1_spec 0.5 0.5)). lra.
  - apply (proj1 (proj2 (f1_spec 0.5 0.25))). lra.
Defined.

(** ** Precision and recall against the threshold *)

Section Threshold.

Variables thr1 thr2 : R.
Hypothesis Hlt : thr1 < thr2.

Lemma precision_closed_increasing :
  Closed.precision_of_threshold thr1 < Closed.precision_of_threshold thr2.
Proof.
  unfold Closed.precision_of_threshold.
  assert (He : exp (-20 * thr2) < exp (-20 * thr1))
    by (apply exp_increasing; lra).
  pose proof (exp_pos (-20 * thr2)) as Hp.
  apply Rplus_lt_compat_l. unfold Rdiv.
  apply Rmult_lt_compat_l; [lra |].
  apply Rinv_lt_contravar; [| lra].
  apply Rmult_lt_0_compat; lra.
Qed.

Lemma recall_closed_decreasing :
  Closed.recall_of_threshold thr2 < Closed.recall_of_threshold thr1.
Proof.
  unfold Closed.recall_of_threshold.
  assert (He : exp (20 * thr1) < exp (20 * thr2))
    by (apply exp_increasing; lra).
  pose proof (exp_pos (20 * thr1)) as Hp.
  unfold Rdiv. rewrite !Rmult_1_l.
  apply Rinv_lt_contravar; [| lra].
  apply Rmult_lt_0_compat; lra.
Qed.

End Threshold.

Lemma Rinv_between (d : R) : 1 < d -> 0 < / d < 1.
Proof.
  intros H. split.
  - apply Rinv_0_lt_compat. lra.
  - pose proof (Rinv_lt_contravar 1 d) as Hc.
    rewrite Rinv_1 in Hc. apply Hc; lra.
Qed.

Lemma precision_closed_bounds (thr : R) :
  0.1 < Closed.precision_of_threshold thr < 1.
Proof.
  unfold Closed.precision_of_threshold.
  pose proof (exp_pos (-20 * thr)) as Hp.
  assert (Hi : 0 < / (1 + 5000 * exp (-20 * thr)) < 1)
    by (apply Rinv_between; lra).
  unfold Rdiv. lra.
Qed.

Lemma recall_closed_bounds (thr : R) :
  0 < Closed.recall_of_threshold thr < 1.
Proof.
  unfold Closed.recall_of_threshold.
  pose proof (exp_pos (20 * thr)) as Hp.
  assert (Hi : 0 < / (1 + 1e-5 * exp (20 * thr)) < 1)
    by (apply Rinv_between; lra).
  unfold Rdiv. lra.
Qed.

(** C6, as stated, fails: the doubles 0.45000000000000007 and
    0.4500000000000001 are distinct thresholds of [0, 1], but [-20 * thr]
    and [20 * thr] round to the same doubles at both, so that, whatever
    [np.exp] computes, the precision is the same at both and so is the
    recall: neither is strictly monotone. *)
Lemma threshold_tie :
  ((0 <=? 0.45000000000000007)%float = true /\
   (0.45000000000000007 <? 0.4500000000000001)%float = true /\
   (0.4500000000000001 <=? 1)%float = true) /\
  F64.any_libm (fun m =>
    F64.precision_of_threshold m 0.45000000000000007%float
    = F64.precision_of_threshold m 0.4500000000000001%float /\
    F64.recall_of_threshold m 0.45000000000000007%float
    = F64.recall_of_threshold m 0.4500000000000001%float).
Proof.
  split; [repeat split; reflexivity |].
  intros m.
  assert (Hn : (-20 * 0.45000000000000007 = -20 * 0.4500000000000001)%float)
    by reflexivity.
  assert (Hp : (20 * 0.45000000000000007 = 20 * 0.4500000000000001)%float)
    by reflexivity.
  unfold F64.precision_of_threshold, F64.recall_of_threshold.
  rewrite Hn, Hp. split; reflexivity.
Qed.

(** C6, amended: for every threshold of [0, 1] the precision lies strictly
    between 0.1 and 1 and the recall strictly between 0 and 1; between two
    thresholds of [0, 1] at least 0.01 apart, as those of the notebook and of
    the pipeline are, the precision increases strictly and the recall
    decreases strictly. *)
Theorem threshold_monotone_bounded (thr thr1 thr2 : R) :
  0 <= thr <= 1 ->
  0 <= thr1 -> thr1 + 0.01 <= thr2 -> thr2 <= 1 ->
  Np.lt (precision_of_threshold (Fin thr1)) (precision_of_threshold (Fin thr2)) /\
  Np.lt (Fin 0.1) (precision_of_threshold (Fin thr)) /\
  Np.lt (precision_of_threshold (Fin thr)) (Fin 1) /\
  Np.lt (recall_of_threshold (Fin thr2)) (recall_of_threshold (Fin thr1)) /\
  Np.lt (Fin 0) (recall_of_threshold (Fin thr)) /\
  Np.lt (recall_of_threshold (Fin thr)) (Fin 1).
Proof.
  intros _ _ Hsep _.
  assert (Hlt : thr1 < thr2) by lra.
  rewrite !precision_of_threshold_fin, !recall_of_threshold_fin.
  cbn [Np.lt].
  pose proof (precision_closed_bounds thr).
  pose proof (recall_closed_bounds thr).
  repeat apply conj; try lra.
  - now apply precision_closed_increasing.
  - now apply recall_closed_decreasing.
Qed.

Lemma threshold_monotone_bounded_witness :
  Np.lt (precision_of_threshold (Fin 0.05)) (precision_of_threshold (Fin 0.20)) /\
  Np.lt (Fin 0.1) (precision_of_threshold (Fin 0.5)) /\
  Np.lt (precision_of_threshold (Fin 0.5)) (Fin 1) /\
  Np.lt (recall_of_threshold (Fin 0.20)) (recall_of_threshold (Fin 0.05)) /\
  Np.lt (Fin 0) (recall_of_threshold (Fin 0.5)) /\
  Np.lt (recall_of_threshold (Fin 0.5)) (Fin 1).
Proof.
  apply (threshold_monotone_bounded 0.5 0.05 0.20); lra.
Defined.

(** ** Accuracy against the number of epochs *)

Lemma accuracy_of_epoch_domain_119 (epoch : R) :
  0 <= epoch <= 119 -> accuracy_of_epoch_domain epoch.
Proof. unfold accuracy_of_epoch_domain. lra. Qed.

Lemma accuracy_closed_peak : Closed.accuracy_of_epoch 80 = 0.95.
Proof.
  unfold Closed.accuracy_of_epoch.
  replace (3 - 0.025 * 80) with 1 by lra.
  rewrite Rlog10_1. lra.
Qed.

Lemma accuracy_closed_below_peak (epoch : R) :
  accuracy_of_epoch_domain epoch -> epoch <> 80 ->
  Closed.accuracy_of_epoch epoch < 0.95.
Proof.
  unfold accuracy_of_epoch_domain, Closed.accuracy_of_epoch. intros Hd Hne.
  assert (Hl : Rlog10 (3 - 0.025 * epoch) <> 0).
  { intros H0. apply Rlog10_eq_0 in H0; [lra | exact Hd]. }
  pose proof (pow2_ge_0 (Rlog10 (3 - 0.025 * epoch))) as Hge.
  pose proof (pow_nonzero _ 2 Hl) as Hnz.
  lra.
Qed.

(** C7, as stated, fails: the double 79.99999999999999, next below 80, is an
    epoch of [0, 119] where [3 - 0.025 * epoch] is 1.0000000000000002; its
    decimal logarithm is 9.64327466553287e-17 and, for any [np.log10] that
    returns it to within 8 units in the last place, three times its square
    is lost in the subtraction from 0.95: the code returns the same accuracy
    as at epoch 80, not a strictly smaller one. *)
Lemma accuracy_of_epoch_peak_tie :
  ((0 <=? 79.99999999999999)%float = true /\
   (79.99999999999999 <? 80)%float = true /\
   (80 <=? 119)%float = true) /\
  F64.every_libm (fun m =>
    F64.within_ulps 8 9.64327466553287e-17%float
      (F64.log10 m (3 - 0.025 * 79.99999999999999)%float) ->
    F64.accuracy_of_epoch m 79.99999999999999%float
    = F64.accuracy_of_epoch m 80%float /\
    F64.accuracy_of_epoch m 80%float = 0.95%float).
Proof.
  split; [repeat split; reflexivity |].
  intros m Hm Hy.
  assert (H80 : (3 - 0.025 * 80 = 1)%float) by reflexivity.
  unfold F64.accuracy_of_epoch. rewrite H80, (F64.log10_one m Hm).
  revert Hy.
  generalize (F64.log10 m (3 - 0.025 * 79.99999999999999)%float) as y.
  intros y Hy. vm_compute in Hy.
  repeat (destruct Hy as [<- | Hy]; [split; reflexivity |]).
  contradiction.
Qed.

(** C7, amended: on [0, 119] the accuracy is largest at epoch 80, strictly
    inside the interval, where it is 0.95: no epoch of the interval has a
    larger accuracy, and every epoch at least 1 away from 80, the two
    endpoints among them, has a strictly smaller one. *)
Theorem accuracy_of_epoch_single_maximum (epoch : R) :
  0 <= epoch <= 119 ->
  0 < 80 < 119 /\
  accuracy_of_epoch (Fin 80) = Fin 0.95 /\
  np_le (accuracy_of_epoch (Fin epoch)) (accuracy_of_epoch (Fin 80)) /\
  (epoch <= 79 \/ 81 <= epoch ->
   Np.lt (accuracy_of_epoch (Fin epoch)) (accuracy_of_epoch (Fin 80))) /\
  Np.lt (accuracy_of_epoch (Fin 0)) (accuracy_of_epoch (Fin 80)) /\
  Np.lt (accuracy_of_epoch (Fin 119)) (accuracy_of_epoch (Fin 80)).
Proof.
  intros Hr.
  assert (Hpeak : accuracy_of_epoch (Fin 80) = Fin 0.95).
  { rewrite accuracy_of_epoch_fin
      by (apply accuracy_of_epoch_domain_119; lra).
    now rewrite accuracy_closed_peak. }
  assert (Hlt : forall e, 0 <= e <= 119 -> e <> 80 ->
            Np.lt (accuracy_of_epoch (Fin e)) (accuracy_of_epoch (Fin 80))).
  { intros e He Hne. rewrite Hpeak.
    rewrite accuracy_of_epoch_fin by now apply accuracy_of_epoch_domain_119.
    cbn [Np.lt]. apply accuracy_closed_below_peak; [| exact Hne].
    now apply accuracy_of_epoch_domain_119. }
  repeat apply conj; try lra.
  - exact Hpeak.
  - destruct (Req_dec epoch 80) as [-> | Hne].
    + rewrite Hpeak. cbn [np_le]. lra.
    + specialize (Hlt epoch Hr Hne). rewrite Hpeak in Hlt |- *.
      rewrite accuracy_of_epoch_fin in Hlt |- *
        by now apply accuracy_of_epoch_domain_119.
      cbn [np_le Np.lt] in *. lra.
  - intros H. apply Hlt; [exact Hr | lra].
  - apply Hlt; lra.
  - apply Hlt; lra.
Qed.

Lemma accuracy_of_epoch_single_maximum_witness :
  np_le (accuracy_of_epoch (Fin 20)) (accuracy_of_epoch (Fin 80)) /\
  Np.lt (accuracy_of_epoch (Fin 119)) (accuracy_of_epoch (Fin 80)).
Proof.
  destruct (accuracy_of_epoch_single_maximum 20) as (_ & _ & Hle & _ & _ & Hr);
    [lra |].
  split; [exact Hle | exact Hr].
Defined.

(** ** Loss against the number of epochs *)

Lemma exp_INR_mult (n : nat) (x : R) : exp (INR n * x) = exp x ^ n.
Proof.
  induction n as [| n IH].
  - simpl. rewrite Rmult_0_l. apply exp_0.
  - rewrite S_INR, Rmult_plus_distr_r, Rmult_1_l, exp_plus, IH.
    simpl. ring.
Qed.

(** [exp 10] is [exp (1/4)] to the power 40, and [exp (1/4) > 5/4]. *)
Lemma exp_10_above_7000 : 7000 < exp 10.
Proof.
  replace 10 with (INR 40 * (1 / 4)) by (simpl; lra).
  rewrite exp_INR_mult.
  apply Rlt_le_trans with ((5 / 4) ^ 40); [lra |].
  apply pow_incr. split; [lra |].
  pose proof (exp_ineq1_le (1 / 4)). lra.
Qed.

Lemma loss_closed_decreasing (epoch1 epoch2 : R) :
  epoch1 < epoch2 ->
  Closed.loss_of_epoch epoch2 < Closed.loss_of_epoch epoch1.
Proof.
  intros H. unfold Closed.loss_of_epoch.
  assert (exp (-0.05 * epoch2) < exp (-0.05 * epoch1))
    by (apply exp_increasing; lra).
  lra.
Qed.

Lemma loss_closed_above_asymptote (epoch : R) :
  3 < Closed.loss_of_epoch epoch.
Proof.
  unfold Closed.loss_of_epoch. pose proof (exp_pos (-0.05 * epoch)). lra.
Qed.

(** Past [140 / eps] epochs the loss is within [eps] of 3. *)
Lemma loss_closed_near_asymptote (eps epoch : R) :
  0 < eps -> 140 / eps < epoch ->
  Closed.loss_of_epoch epoch < 3 + eps.
Proof.
  intros Heps He. unfold Closed.loss_of_epoch.
  assert (Hpos : 0 < 140 / eps)
    by (apply Rdiv_lt_0_compat; lra).
  assert (Hprod : 140 < epoch * eps).
  { apply (Rmult_lt_compat_r eps) in He; [| exact Heps].
    replace (140 / eps * eps) with 140 in He by (field; lra). exact He. }
  set (x := 0.05 * epoch).
  assert (Hx : 1 + x <= exp x) by apply exp_ineq1_le.
  assert (Hinv : exp (-0.05 * epoch) = / exp x).
  { unfold x. rewrite <- exp_Ropp. f_equal. lra. }
  rewrite Hinv.
  assert (Hex : 0 < exp x) by apply exp_pos.
  assert (Hb : 7 < eps * exp x).
  { apply Rlt_le_trans with (eps * (1 + x)).
    - unfold x. nra.
    - apply Rmult_le_compat_l; lra. }
  assert (7 * / exp x < eps); [| lra].
  apply (Rmult_lt_reg_r (exp x)); [exact Hex |].
  rewrite Rmult_assoc, Rinv_l by lra. lra.
Qed.

(** C8: [loss_of_epoch 0] is exactly 10; the loss never increases with the
    epoch, never goes below 3 and comes within any positive distance of 3
    for large epochs; and [loss_of_epoch 200] is below 3.001. *)
Theorem loss_of_epoch_decay :
  loss_of_epoch (Fin 0) = Fin 10 /\
  (forall epoch1 epoch2, epoch1 <= epoch2 ->
     np_le (loss_of_epoch (Fin epoch2)) (loss_of_epoch (Fin epoch1))) /\
  (forall epoch, np_le (Fin 3) (loss_of_epoch (Fin epoch))) /\
  (forall eps, 0 < eps ->
     exists N, forall epoch, N < epoch ->
       Np.lt (loss_of_epoch (Fin epoch)) (Fin (3 + eps))) /\
  Np.lt (loss_of_epoch (Fin 200)) (Fin 3.001).
Proof.
  repeat apply conj.
  - rewrite loss_of_epoch_fin. unfold Closed.loss_of_epoch.
    f_equal. rewrite Rmult_0_r, exp_0. lra.
  - intros e1 e2 [H | ->]; rewrite !loss_of_epoch_fin; cbn [np_le].
    + left. now apply loss_closed_decreasing.
    + right. reflexivity.
  - intros e. rewrite loss_of_epoch_fin. cbn [np_le].
    left. apply loss_closed_above_asymptote.
  - intros eps Heps. exists (140 / eps). intros e He.
    rewrite loss_of_epoch_fin. cbn [Np.lt].
    now apply loss_closed_near_asymptote.
  - rewrite loss_of_epoch_fin. cbn [Np.lt]. unfold Closed.loss_of_epoch.
    replace (-0.05 * 200) with (Ropp 10) by lra.
    rewrite exp_Ropp.
    pose proof exp_10_above_7000 as H.
    assert (Hi : / exp 10 < / 7000)
      by (apply Rinv_lt_contravar; [apply Rmult_lt_0_compat |]; lra).
    lra.
Qed.

Lemma loss_of_epoch_decay_witness :
  np_le (loss_of_epoch (Fin 20)) (loss_of_epoch (Fin 1)) /\
  exists N, forall epoch, N < epoch ->
    Np.lt (loss_of_epoch (Fin epoch)) (Fin (3 + 0.001)).
Proof.
  destruct loss_of_epoch_decay as (_ & Hdec & _ & Hlim & _).
  split.
  - apply Hdec. lra.
  - apply Hlim. lra.
Defined.

(** ** The ranges plotted by the notebook *)

Lemma arange_in (start step : R) (len : nat) (x : npfloat) :
  In x (arange start step len) ->
  exists k, (k < len)%nat /\ x = Fin (start + INR k * step).
Proof.
  unfold arange. intros H. apply in_map_iff in H as (k & <- & Hk).
  apply in_seq in Hk. exists k. split; [lia | reflexivity].
Qed.

Lemma logspace_in (start stop : R) (num : nat) (x : npfloat) :
  In x (logspace start stop num) ->
  exists k, (k < num)%nat /\
    x = Fin (pow10 (start + INR k * ((stop - start) / INR (num - 1)))).
Proof.
  unfold logspace. intros H. apply in_map_iff in H as (k & <- & Hk).
  apply in_seq in Hk. exists k. split; [lia | reflexivity].
Qed.

Lemma INR_bounds (k n : nat) : (k < n)%nat -> 0 <= INR k <= INR n - 1.
Proof.
  intros H. split; [apply pos_INR |].
  assert (Hs : (S k <= n)%nat) by lia.
  apply le_INR in Hs. rewrite S_INR in Hs. lra.
Qed.

(** The learning rates of the notebook are [10 ** y] with [-4 <= y <= 0.8]. *)
Lemma logspace_lr_exponent (k : nat) :
  (k < 50)%nat -> -4 <= -4 + INR k * ((0.8 - -4) / INR (50 - 1)) <= 0.8.
Proof.
  intros H. apply INR_bounds in H.
  replace (INR (50 - 1)) with 49 by (simpl; lra).
  replace (INR 50) with 50 in H by (simpl; lra).
  lra.
Qed.

Ltac two_curves :=
  apply Forall_cons; [| apply Forall_cons; [| apply Forall_nil]];
  cbn [snd]; apply Forall_forall.

Lemma cell_threshold_finite (g : namespace) :
  curves_finite (snd (cell_threshold g)).
Proof.
  unfold curves_finite, cell_threshold. cbn [snd].
  two_curves; intros y Hy;
    apply in_map_iff in Hy as (x & <- & Hx);
    apply arange_in in Hx as (k & _ & ->).
  - now rewrite precision_of_threshold_fin.
  - now rewrite recall_of_threshold_fin.
Qed.

Lemma cell_epoch_finite (g : namespace) :
  curves_finite (snd (cell_epoch g)).
Proof.
  unfold curves_finite, cell_epoch. cbn [snd].
  assert (Hdom : forall k, (k < 100)%nat ->
            accuracy_of_epoch_domain (0 + INR k * 1)).
  { intros k Hk. apply INR_bounds in Hk.
    replace (INR 100) with 100 in Hk by (simpl; lra).
    unfold accuracy_of_epoch_domain. lra. }
  two_curves; intros y Hy.
  - apply in_map_iff in Hy as (x & <- & Hx).
    apply arange_in in Hx as (k & _ & ->). exact I.
  - apply in_map_iff in Hy as (a & <- & Ha).
    apply in_map_iff in Ha as (x & <- & Hx).
    apply arange_in in Hx as (k & Hk & ->).
    rewrite accuracy_of_epoch_fin by now apply Hdom. exact I.
Qed.

Lemma cell_lr_finite (g : namespace) :
  curves_finite (snd (cell_lr g)).
Proof.
  unfold curves_finite, cell_lr. cbn [snd].
  assert (Hdom : forall k, (k < 50)%nat ->
            loss_of_lr_domain
              (pow10 (-4 + INR k * ((0.8 - -4) / INR (50 - 1))))).
  { intros k Hk. apply logspace_lr_exponent in Hk.
    split; [apply pow10_pos | rewrite Rlog10_pow10; lra]. }
  two_curves; intros y Hy;
    apply in_map_iff in Hy as (z & <- & Hz);
    apply in_map_iff in Hz as (x & <- & Hx);
    apply logspace_in in Hx as (k & Hk & ->).
  - change (is_finite (loss_of_lr
              (Fin (pow10 (-4 + INR k * ((0.8 - -4) / INR (50 - 1))))))).
    apply loss_of_lr_finite_iff. now apply Hdom.
  - change (is_finite (accuracy_of_lr
              (Fin (pow10 (-4 + INR k * ((0.8 - -4) / INR (50 - 1))))))).
    apply accuracy_of_lr_finite_iff, loss_of_lr_domain_accuracy.
    now apply Hdom.
Qed.

(** ** What a cell leaves behind *)









(** ** Determinism *)



(** ** The search space of the pipeline *)

Lemma in_ps (p : TuningParameters) :
  In p ps ->
  (threshold p = 0.05 \/ threshold p = 0.20) /\
  (epoch_count p = 1 \/ epoch_count p = 20) /\
  (learning_rate p = 0.0001 \/ learning_rate p = 0.001).
Proof.
  cbn. intros H.
  repeat (destruct H as [<- | H]; [cbn; repeat split; auto |]).
  contradiction.
Qed.

(** Where the argument of the logarithm lies in [1, sqrt 10), the accuracy
    over the epochs stays above 0.2. *)
Lemma accuracy_closed_epoch_positive (epoch : R) :
  1 <= 3 - 0.025 * epoch ->
  (3 - 0.025 * epoch) * (3 - 0.025 * epoch) < 10 ->
  0.2 < Closed.accuracy_of_epoch epoch.
Proof.
  intros H1 H2. unfold Closed.accuracy_of_epoch.
  pose proof (Rlog10_below_half _ H1 H2). nra.
Qed.

Lemma accuracy_closed_lr_positive (lr : R) :
  1 <= 0.7 - 0.5 * Rlog10 lr ->
  (0.7 - 0.5 * Rlog10 lr) * (0.7 - 0.5 * Rlog10 lr) < 10 ->
  0.73 < Closed.accuracy_of_lr lr.
Proof.
  intros H1 H2. unfold Closed.accuracy_of_lr.
  pose proof (Rlog10_below_half _ H1 H2). nra.
Qed.

(** On the domain no logarithm is undefined and the evaluation goes on to
    the metrics. *)
Lemma evaluate_in_domain (p : TuningParameters) (w : MetricWeights) :
  accuracy_of_epoch_domain (epoch_count p) ->
  loss_of_lr_domain (learning_rate p) ->
  evaluate p w
  = (let thr := Fin (threshold p) in
     let epoch := Fin (epoch_count p) in
     let lr := Fin (learning_rate p) in
     match f1 (precision w thr epoch lr) (recall w thr epoch lr) with
     | Raises e => Raises e
     | Returns f =>
         Returns {| precision_value := precision w thr epoch lr;
                    recall_value := recall w thr epoch lr;
                    loss_value := loss w epoch lr;
                    accuracy_value := accuracy w epoch lr;
                    f1_value := f |}
     end).
Proof.
  intros He [Hl Hz]. unfold accuracy_of_epoch_domain in He.
  unfold evaluate. cbv zeta.
  rewrite (sgn_pos (3 - 0.025 * epoch_count p)) by exact He.
  rewrite (sgn_pos (learning_rate p)) by exact Hl.
  rewrite (sgn_pos (0.7 - 0.5 * Rlog10 (learning_rate p))) by lra.
  rewrite (sgn_pos (0.9 - Rlog10 (learning_rate p))) by lra.
  reflexivity.
Qed.

(** With weights 1 and positive accuracies, precision plus recall is positive
    and the evaluation returns five finite metrics. *)
Lemma evaluate_default_finite (p : TuningParameters) :
  accuracy_of_epoch_domain (epoch_count p) ->
  loss_of_lr_domain (learning_rate p) ->
  0 < Closed.accuracy_of_epoch (epoch_count p) ->
  0 < Closed.accuracy_of_lr (learning_rate p) ->
  exists m, evaluate p default_weights = Returns m /\ all_finite m.
Proof.
  intros He Hlr Hae Hal.
  pose proof (accuracy_fin default_weights _ _ He Hlr) as Ha.
  pose proof (precision_fin default_weights (threshold p) _ _ He Hlr) as Hp.
  pose proof (recall_fin default_weights (threshold p) _ _ He Hlr) as Hr.
  pose proof (loss_fin default_weights (epoch_count p) _ Hlr) as Hl.
  cbn [default_weights k_accuracy k_precision k_recall k_loss] in Ha, Hp, Hr, Hl.
  pose proof (precision_closed_bounds (threshold p)) as Hpb.
  pose proof (recall_closed_bounds (threshold p)) as Hrb.
  set (a := Closed.accuracy_of_epoch (epoch_count p)
            * Closed.accuracy_of_lr (learning_rate p)).
  assert (Hapos : 0 < a) by (apply Rmult_lt_0_compat; assumption).
  assert (Hsum : 1 * Closed.precision_of_threshold (threshold p)
                   * (1 * Closed.accuracy_of_epoch (epoch_count p)
                      * Closed.accuracy_of_lr (learning_rate p))
                 + 1 * Closed.recall_of_threshold (threshold p)
                   * (1 * Closed.accuracy_of_epoch (epoch_count p)
                      * Closed.accuracy_of_lr (learning_rate p)) <> 0).
  { match goal with |- ?s <> 0 =>
      replace s with ((Closed.precision_of_threshold (threshold p)
                       + Closed.recall_of_threshold (threshold p)) * a)
        by (unfold a; ring)
    end.
    apply Rgt_not_eq, Rmult_lt_0_compat; lra. }
  rewrite evaluate_in_domain by assumption. cbv zeta.
  rewrite Hp, Hr, Hl, Ha.
  rewrite f1_defined by exact Hsum.
  eexists. split; [reflexivity |].
  unfold all_finite. cbn. tauto.
Qed.

Lemma ps_domains (p : TuningParameters) :
  In p ps ->
  accuracy_of_epoch_domain (epoch_count p) /\
  loss_of_lr_domain (learning_rate p) /\
  0 < Closed.accuracy_of_epoch (epoch_count p) /\
  0 < Closed.accuracy_of_lr (learning_rate p).
Proof.
  intros H. destruct (in_ps p H) as (_ & He & Hl).
  assert (Hz : Rlog10 (learning_rate p) = -4 \/ Rlog10 (learning_rate p) = -3).
  { destruct Hl as [-> | ->];
      [left; apply Rlog10_0_0001 | right; apply Rlog10_0_001]. }
  repeat apply conj.
  - unfold accuracy_of_epoch_domain. lra.
  - lra.
  - lra.
  - assert (0.2 < Closed.accuracy_of_epoch (epoch_count p)); [| lra].
    apply accuracy_closed_epoch_positive; nra.
  - assert (0.73 < Closed.accuracy_of_lr (learning_rate p)); [| lra].
    apply accuracy_closed_lr_positive; nra.
Qed.

(** C10: every combination of the grid given to the pipeline is strictly
    inside the domain of every metric function (the epoch is below 120 and
    the learning rate is positive and below [10 ** 0.9], so that every
    argument of a logarithm is positive); the univariate and multivariate
    metrics are finite there for all weights, and with the default weights the
    evaluation returns five finite metrics. *)
Theorem search_space_in_domain (p : TuningParameters) :
  In p ps ->
  (epoch_count p < 120 /\ 0 < 3 - 0.025 * epoch_count p) /\
  (0 < learning_rate p /\ learning_rate p < pow10 0.9 /\
   0 < 0.9 - Rlog10 (learning_rate p) /\
   0 < 0.7 - 0.5 * Rlog10 (learning_rate p)) /\
  (is_finite (precision_of_threshold (Fin (threshold p))) /\
   is_finite (recall_of_threshold (Fin (threshold p))) /\
   is_finite (loss_of_epoch (Fin (epoch_count p))) /\
   is_finite (accuracy_of_epoch (Fin (epoch_count p))) /\
   is_finite (loss_of_lr (Fin (learning_rate p))) /\
   is_finite (accuracy_of_lr (Fin (learning_rate p)))) /\
  (forall w,
     let thr := Fin (threshold p) in
     let epoch := Fin (epoch_count p) in
     let lr := Fin (learning_rate p) in
     is_finite (precision w thr epoch lr) /\
     is_finite (recall w thr epoch lr) /\
     is_finite (loss w epoch lr) /\
     is_finite (accuracy w epoch lr)) /\
  (exists m, evaluate p default_weights = Returns m /\ all_finite m).
Proof.
  intros H. destruct (ps_domains p H) as (He & Hl & Hae & Hal).
  pose proof (loss_of_lr_domain_accuracy _ Hl) as Hl'.
  pose proof He as He'. pose proof Hl as [Hl1 Hl2]. pose proof Hl' as [_ Hl3].
  unfold accuracy_of_epoch_domain in He'.
  repeat apply conj; try lra.
  - now apply Rlog10_lt_pow10.
  - rewrite precision_of_threshold_fin. exact I.
  - rewrite recall_of_threshold_fin. exact I.
  - exact I.
  - now apply accuracy_of_epoch_finite_iff.
  - now apply loss_of_lr_finite_iff.
  - now apply accuracy_of_lr_finite_iff.
  - intros w. cbv zeta.
    rewrite precision_fin, recall_fin, loss_fin, accuracy_fin by assumption.
    cbn. tauto.
  - now apply evaluate_default_finite.
Qed.

Lemma search_space_in_domain_witness :
  exists m,
    evaluate {| threshold := 0.05; epoch_count := 1; learning_rate := 0.0001 |}
             default_weights = Returns m /\
    all_finite m.
Proof.
  apply (search_space_in_domain
           {| threshold := 0.05; epoch_count := 1; learning_rate := 0.0001 |}).
  cbn. left. reflexivity.
Defined.

(** ** The shape of the curves *)

Lemma Rlog10_le_pow10 (x c : R) : 0 < x -> Rlog10 x <= c <-> x <= pow10 c.
Proof.
  intros Hx. split; intros [H | H].
  - left. now apply Rlog10_lt_pow10.
  - right. now apply Rlog10_eq_pow10.
  - left. now apply Rlog10_lt_pow10.
  - right. now apply Rlog10_eq_pow10.
Qed.

Lemma Rlog10_ge_pow10 (x c : R) : 0 < x -> c <= Rlog10 x <-> pow10 c <= x.
Proof.
  intros Hx. split; intros [H | H].
  - left. now apply Rlog10_gt_pow10.
  - right. symmetry. apply Rlog10_eq_pow10; [exact Hx | now symmetry].
  - left. now apply Rlog10_gt_pow10.
  - right. symmetry. apply Rlog10_eq_pow10; [exact Hx | now symmetry].
Qed.

Lemma Rlog10_nonneg (x : R) : 1 <= x -> 0 <= Rlog10 x.
Proof.
  intros [H | <-]; [| rewrite Rlog10_1; lra].
  left. rewrite <- Rlog10_1. apply Rlog10_increasing; lra.
Qed.

Lemma Rlog10_nonpos (x : R) : 0 < x -> x <= 1 -> Rlog10 x <= 0.
Proof.
  intros Hx [H | ->]; [| rewrite Rlog10_1; lra].
  left. rewrite <- Rlog10_1. now apply Rlog10_increasing.
Qed.

(** The squared logarithm grows away from 1 on both sides. *)
Lemma Rlog10_sq_increasing (x y : R) :
  1 <= x -> x < y -> Rlog10 x ^ 2 < Rlog10 y ^ 2.
Proof.
  intros H1 Hxy.
  pose proof (Rlog10_nonneg x H1).
  assert (Rlog10 x < Rlog10 y) by (apply Rlog10_increasing; lra).
  nra.
Qed.

Lemma Rlog10_sq_decreasing (x y : R) :
  0 < x -> x < y -> y <= 1 -> Rlog10 y ^ 2 < Rlog10 x ^ 2.
Proof.
  intros Hx Hxy Hy.
  assert (Rlog10 y <= 0) by (apply Rlog10_nonpos; lra).
  assert (Rlog10 x < Rlog10 y) by now apply Rlog10_increasing.
  nra.
Qed.

Lemma Rlog10_sq_pos (x : R) : 0 < x -> x <> 1 -> 0 < Rlog10 x ^ 2.
Proof.
  intros Hx Hne.
  assert (Hl : Rlog10 x <> 0) by (intros H0; now apply Rlog10_eq_0 in H0).
  pose proof (pow2_ge_0 (Rlog10 x)). pose proof (pow_nonzero _ 2 Hl). lra.
Qed.

Lemma accuracy_closed_rising (epoch1 epoch2 : R) :
  epoch1 < epoch2 -> epoch2 <= 80 ->
  Closed.accuracy_of_epoch epoch1 < Closed.accuracy_of_epoch epoch2.
Proof.
  intros Hlt H80. unfold Closed.accuracy_of_epoch.
  assert (Rlog10 (3 - 0.025 * epoch2) ^ 2 < Rlog10 (3 - 0.025 * epoch1) ^ 2)
    by (apply Rlog10_sq_increasing; lra).
  lra.
Qed.

Lemma accuracy_closed_falling (epoch1 epoch2 : R) :
  epoch1 < epoch2 -> 80 <= epoch1 -> epoch2 < 120 ->
  Closed.accuracy_of_epoch epoch2 < Closed.accuracy_of_epoch epoch1.
Proof.
  intros Hlt H80 Hdom. unfold Closed.accuracy_of_epoch.
  assert (Rlog10 (3 - 0.025 * epoch1) ^ 2 < Rlog10 (3 - 0.025 * epoch2) ^ 2)
    by (apply Rlog10_sq_decreasing; lra).
  lra.
Qed.

(** X1: between two non-negative epochs at least one epoch apart, the
    accuracy rises strictly up to epoch 80 and falls strictly from epoch 80
    to the end of the domain at 120; it is exactly 0.95 at epoch 80 and at
    most 0.95 everywhere on the domain. *)
Theorem accuracy_of_epoch_unimodal (epoch1 epoch2 : R) :
  0 <= epoch1 -> epoch1 + 1 <= epoch2 -> epoch2 < 120 ->
  (epoch2 <= 80 ->
   Np.lt (accuracy_of_epoch (Fin epoch1)) (accuracy_of_epoch (Fin epoch2))) /\
  (80 <= epoch1 ->
   Np.lt (accuracy_of_epoch (Fin epoch2)) (accuracy_of_epoch (Fin epoch1))) /\
  np_le (accuracy_of_epoch (Fin epoch1)) (Fin 0.95) /\
  accuracy_of_epoch (Fin 80) = Fin 0.95.
Proof.
  intros H0 Hsep Hdom.
  assert (Hlt : epoch1 < epoch2) by lra.
  assert (H1 : accuracy_of_epoch_domain epoch1)
    by (unfold accuracy_of_epoch_domain; lra).
  assert (H2 : accuracy_of_epoch_domain epoch2)
    by (unfold accuracy_of_epoch_domain; lra).
  assert (H80 : accuracy_of_epoch_domain 80)
    by (unfold accuracy_of_epoch_domain; lra).
  rewrite !accuracy_of_epoch_fin by assumption. cbn [Np.lt np_le].
  repeat apply conj.
  - intros H. now apply accuracy_closed_rising.
  - intros H. now apply accuracy_closed_falling.
  - destruct (Req_dec epoch1 80) as [-> | Hne].
    + rewrite accuracy_closed_peak. lra.
    + left. now apply accuracy_closed_below_peak.
  - now rewrite accuracy_closed_peak.
Qed.

Lemma accuracy_of_epoch_unimodal_witness :
  Np.lt (accuracy_of_epoch (Fin 20)) (accuracy_of_epoch (Fin 40)) /\
  Np.lt (accuracy_of_epoch (Fin 100)) (accuracy_of_epoch (Fin 90)).
Proof.
  split.
  - apply (proj1 (accuracy_of_epoch_unimodal 20 40
                    ltac:(lra) ltac:(lra) ltac:(lra))). lra.
  - apply (proj1 (proj2 (accuracy_of_epoch_unimodal 90 100
                           ltac:(lra) ltac:(lra) ltac:(lra)))). lra.
Defined.

Lemma loss_closed_floor (lr : R) :
  loss_of_lr_domain lr -> lr <> pow10 (-0.1) -> 0.6 < Closed.loss_of_lr lr.
Proof.
  intros [Hlr Hz] Hne. unfold Closed.loss_of_lr.
  assert (0 < Rlog10 (0.9 - Rlog10 lr) ^ 2); [| lra].
  apply Rlog10_sq_pos; [lra |].
  intros H1. apply Hne. apply Rlog10_eq_pow10; [exact Hlr | lra].
Qed.

Lemma loss_lr_closed_falling (lr1 lr2 : R) :
  0 < lr1 -> lr1 < lr2 -> lr2 <= pow10 (-0.1) ->
  Closed.loss_of_lr lr2 < Closed.loss_of_lr lr1.
Proof.
  intros Hpos Hlt Hle. apply Rlog10_le_pow10 in Hle; [| lra].
  assert (Hz : Rlog10 lr1 < Rlog10 lr2) by now apply Rlog10_increasing.
  unfold Closed.loss_of_lr.
  assert (Rlog10 (0.9 - Rlog10 lr2) ^ 2 < Rlog10 (0.9 - Rlog10 lr1) ^ 2)
    by (apply Rlog10_sq_increasing; lra).
  lra.
Qed.

Lemma loss_lr_closed_rising (lr1 lr2 : R) :
  pow10 (-0.1) <= lr1 -> lr1 < lr2 -> lr2 < pow10 0.9 ->
  Closed.loss_of_lr lr1 < Closed.loss_of_lr lr2.
Proof.
  intros Hge Hlt Hdom. pose proof (pow10_pos (-0.1)) as Hp.
  assert (Hpos : 0 < lr1) by lra.
  apply Rlog10_ge_pow10 in Hge; [| lra].
  assert (Hz2 : Rlog10 lr2 < 0.9) by (apply Rlog10_lt_pow10; lra).
  assert (Hz : Rlog10 lr1 < Rlog10 lr2) by (apply Rlog10_increasing; lra).
  unfold Closed.loss_of_lr.
  assert (Rlog10 (0.9 - Rlog10 lr1) ^ 2 < Rlog10 (0.9 - Rlog10 lr2) ^ 2)
    by (apply Rlog10_sq_decreasing; lra).
  lra.
Qed.

Lemma loss_lr_closed_floor_value : Closed.loss_of_lr (pow10 (-0.1)) = 0.6.
Proof.
  unfold Closed.loss_of_lr. rewrite Rlog10_pow10.
  replace (0.9 - -0.1) with 1 by lra. rewrite Rlog10_1. lra.
Qed.

Lemma pow10_1 : pow10 1 = 10.
Proof.
  unfold pow10, Rpower. rewrite Rmult_1_l. apply exp_ln. lra.
Qed.

Lemma pow10_7_94 : 7.94 < pow10 0.9.
Proof. apply Rlog10_lt_pow10; [lra | apply Rlog10_7_94]. Qed.

Lemma pow10_25 : 25 < pow10 1.4.
Proof. apply Rlog10_lt_pow10; [lra | apply Rlog10_25]. Qed.

(** X2: between two learning rates of (0, 7.94] of which the larger is at
    least 1.1 times the smaller, the loss falls strictly up to
    [lr = 10 ** -0.1] and rises strictly from there; it is 0.6 at
    [10 ** -0.1] and at least 0.6 everywhere on (0, 7.94]. *)
Theorem loss_of_lr_unimodal (lr1 lr2 : R) :
  0 < lr1 -> 1.1 * lr1 <= lr2 -> lr2 <= 7.94 ->
  (lr2 <= pow10 (-0.1) ->
   Np.lt (loss_of_lr (Fin lr2)) (loss_of_lr (Fin lr1))) /\
  (pow10 (-0.1) <= lr1 ->
   Np.lt (loss_of_lr (Fin lr1)) (loss_of_lr (Fin lr2))) /\
  np_le (Fin 0.6) (loss_of_lr (Fin lr1)) /\
  loss_of_lr (Fin (pow10 (-0.1))) = Fin 0.6.
Proof.
  intros Hpos Hsep Hdom.
  assert (Hlt : lr1 < lr2) by lra.
  pose proof pow10_7_94 as H794.
  assert (H1 : loss_of_lr_domain lr1) by (apply loss_of_lr_domain_7_94; lra).
  assert (H2 : loss_of_lr_domain lr2) by (apply loss_of_lr_domain_7_94; lra).
  assert (H0 : loss_of_lr_domain (pow10 (-0.1))).
  { split; [apply pow10_pos | rewrite Rlog10_pow10; lra]. }
  rewrite !loss_of_lr_fin by assumption. cbn [Np.lt np_le].
  repeat apply conj.
  - intros Hle. now apply loss_lr_closed_falling.
  - intros Hge. apply loss_lr_closed_rising; lra.
  - destruct (Req_dec lr1 (pow10 (-0.1))) as [-> | Hne].
    + rewrite loss_lr_closed_floor_value. lra.
    + left. now apply loss_closed_floor.
  - now rewrite loss_lr_closed_floor_value.
Qed.

Lemma loss_of_lr_unimodal_witness :
  Np.lt (loss_of_lr (Fin 2)) (loss_of_lr (Fin 3)).
Proof.
  assert (H1 : pow10 (-0.1) <= 2).
  { left. apply Rlt_trans with (pow10 0); [apply pow10_increasing; lra |].
    rewrite pow10_0. lra. }
  exact (proj1 (proj2 (loss_of_lr_unimodal 2 3
                         ltac:(lra) ltac:(lra) ltac:(lra))) H1).
Defined.

Lemma accuracy_lr_closed_ceiling (lr : R) :
  accuracy_of_lr_domain lr -> lr <> pow10 (-0.6) ->
  Closed.accuracy_of_lr lr < 0.98.
Proof.
  intros [Hlr Hz] Hne. unfold Closed.accuracy_of_lr.
  assert (0 < Rlog10 (0.7 - 0.5 * Rlog10 lr) ^ 2); [| lra].
  apply Rlog10_sq_pos; [lra |].
  intros H1. apply Hne. apply Rlog10_eq_pow10; [exact Hlr | lra].
Qed.

Lemma accuracy_lr_closed_rising (lr1 lr2 : R) :
  0 < lr1 -> lr1 < lr2 -> lr2 <= pow10 (-0.6) ->
  Closed.accuracy_of_lr lr1 < Closed.accuracy_of_lr lr2.
Proof.
  intros Hpos Hlt Hle. apply Rlog10_le_pow10 in Hle; [| lra].
  assert (Hz : Rlog10 lr1 < Rlog10 lr2) by now apply Rlog10_increasing.
  unfold Closed.accuracy_of_lr.
  assert (Rlog10 (0.7 - 0.5 * Rlog10 lr2) ^ 2
          < Rlog10 (0.7 - 0.5 * Rlog10 lr1) ^ 2)
    by (apply Rlog10_sq_increasing; lra).
  lra.
Qed.

Lemma accuracy_lr_closed_falling (lr1 lr2 : R) :
  pow10 (-0.6) <= lr1 -> lr1 < lr2 -> lr2 < pow10 1.4 ->
  Closed.accuracy_of_lr lr2 < Closed.accuracy_of_lr lr1.
Proof.
  intros Hge Hlt Hdom. pose proof (pow10_pos (-0.6)) as Hp.
  assert (Hpos : 0 < lr1) by lra.
  apply Rlog10_ge_pow10 in Hge; [| lra].
  assert (Hz2 : Rlog10 lr2 < 1.4) by (apply Rlog10_lt_pow10; lra).
  assert (Hz : Rlog10 lr1 < Rlog10 lr2) by (apply Rlog10_increasing; lra).
  unfold Closed.accuracy_of_lr.
  assert (Rlog10 (0.7 - 0.5 * Rlog10 lr1) ^ 2
          < Rlog10 (0.7 - 0.5 * Rlog10 lr2) ^ 2)
    by (apply Rlog10_sq_decreasing; lra).
  lra.
Qed.

Lemma accuracy_lr_closed_peak : Closed.accuracy_of_lr (pow10 (-0.6)) = 0.98.
Proof.
  unfold Closed.accuracy_of_lr. rewrite Rlog10_pow10.
  replace (0.7 - 0.5 * -0.6) with 1 by lra. rewrite Rlog10_1. lra.
Qed.

(** X3: between two learning rates of (0, 25] of which the larger is at
    least 1.1 times the smaller, the accuracy rises strictly up to
    [lr = 10 ** -0.6] and falls strictly from there; it is 0.98 at
    [10 ** -0.6] and at most 0.98 everywhere on (0, 25]. *)
Theorem accuracy_of_lr_unimodal (lr1 lr2 : R) :
  0 < lr1 -> 1.1 * lr1 <= lr2 -> lr2 <= 25 ->
  (lr2 <= pow10 (-0.6) ->
   Np.lt (accuracy_of_lr (Fin lr1)) (accuracy_of_lr (Fin lr2))) /\
  (pow10 (-0.6) <= lr1 ->
   Np.lt (accuracy_of_lr (Fin lr2)) (accuracy_of_lr (Fin lr1))) /\
  np_le (accuracy_of_lr (Fin lr1)) (Fin 0.98) /\
  accuracy_of_lr (Fin (pow10 (-0.6))) = Fin 0.98.
Proof.
  intros Hpos Hsep Hdom.
  assert (Hlt : lr1 < lr2) by lra.
  pose proof pow10_25 as H25.
  assert (H1 : accuracy_of_lr_domain lr1)
    by (apply accuracy_of_lr_domain_25; lra).
  assert (H2 : accuracy_of_lr_domain lr2)
    by (apply accuracy_of_lr_domain_25; lra).
  assert (H0 : accuracy_of_lr_domain (pow10 (-0.6))).
  { split; [apply pow10_pos | rewrite Rlog10_pow10; lra]. }
  rewrite !accuracy_of_lr_fin by assumption. cbn [Np.lt np_le].
  repeat apply conj.
  - intros Hle. now apply accuracy_lr_closed_rising.
  - intros Hge. apply accuracy_lr_closed_falling; lra.
  - destruct (Req_dec lr1 (pow10 (-0.6))) as [-> | Hne].
    + rewrite accuracy_lr_closed_peak. lra.
    + left. now apply accuracy_lr_closed_ceiling.
  - now rewrite accuracy_lr_closed_peak.
Qed.

Lemma accuracy_of_lr_unimodal_witness :
  Np.lt (accuracy_of_lr (Fin 2)) (accuracy_of_lr (Fin 1)).
Proof.
  assert (H1 : pow10 (-0.6) <= 1).
  { left. rewrite <- pow10_0. apply pow10_increasing. lra. }
  exact (proj1 (proj2 (accuracy_of_lr_unimodal 1 2
                         ltac:(lra) ltac:(lra) ltac:(lra))) H1).
Defined.

(** ** Ranges of the metrics *)

Lemma Rlog10_10 : Rlog10 10 = 1.
Proof. rewrite <- pow10_1. apply Rlog10_pow10. Qed.

Lemma Rlog10_0_1 : Rlog10 0.1 = -1.
Proof.
  replace 0.1 with (/ 10 ^ 1) by lra.
  rewrite Rlog10_inv_pow. simpl. lra.
Qed.

Lemma Rlog10_le (x y : R) : 0 < x -> x <= y -> Rlog10 x <= Rlog10 y.
Proof.
  intros Hx [H | ->]; [left; now apply Rlog10_increasing | right; reflexivity].
Qed.

(** Between [1 / sqrt 10] and [sqrt 10] the logarithm is within a half of 0. *)
Lemma Rlog10_within_half (x : R) :
  0 < x -> 0.1 < x * x -> x * x < 10 -> -0.5 < Rlog10 x < 0.5.
Proof.
  intros Hx Hlo Hhi. pose proof ln10_pos as H10.
  assert (H2 : ln (x * x) = ln x + ln x) by (apply ln_mult; lra).
  assert (Hu : ln (x * x) < ln 10) by (apply ln_increasing; nra).
  assert (Hl : - ln 10 < ln (x * x)).
  { rewrite <- ln_Rinv by lra. apply ln_increasing; lra. }
  unfold Rlog10. split.
  - apply (Rmult_lt_reg_r (ln 10)); [exact H10 |].
    replace (ln x / ln 10 * ln 10) with (ln x) by (field; lra). lra.
  - apply (Rmult_lt_reg_r (ln 10)); [exact H10 |].
    replace (ln x / ln 10 * ln 10) with (ln x) by (field; lra). lra.
Qed.

(** [0.3 ^ 5 > 10 ^ -3], so [log10 0.3 > -0.6]. *)
Lemma Rlog10_0_3 : -0.6 < Rlog10 0.3.
Proof.
  pose proof ln10_pos as H10.
  assert (H5 : INR 5 * ln 0.3 = ln (0.3 ^ 5)) by (symmetry; apply ln_pow; lra).
  assert (H3 : ln (/ 10 ^ 3) = - (INR 3 * ln 10)).
  { rewrite ln_Rinv by (apply pow_lt; lra). now rewrite ln_pow by lra. }
  assert (Hlt : ln (/ 10 ^ 3) < ln (0.3 ^ 5)).
  { apply ln_increasing; [apply Rinv_0_lt_compat, pow_lt; lra | lra]. }
  rewrite H3, <- H5 in Hlt. simpl INR in Hlt.
  unfold Rlog10.
  apply (Rmult_lt_reg_r (ln 10)); [exact H10 |].
  replace (ln 0.3 / ln 10 * ln 10) with (ln 0.3) by (field; lra). lra.
Qed.

Section Ranges.

Variables epoch lr : R.
Hypothesis Hepoch : 0 <= epoch <= 100.
Hypothesis Hlr : 0.0001 <= lr <= pow10 0.8.

Lemma range_epoch_domain : accuracy_of_epoch_domain epoch.
Proof. unfold accuracy_of_epoch_domain. lra. Qed.

Lemma range_lr_log : -4 <= Rlog10 lr <= 0.8.
Proof.
  destruct Hlr as [Hlo Hhi]. split.
  - rewrite <- Rlog10_0_0001. apply Rlog10_le; lra.
  - apply Rlog10_le_pow10; [lra | exact Hhi].
Qed.

Lemma range_lr_domain : loss_of_lr_domain lr.
Proof. pose proof range_lr_log. split; lra. Qed.

Lemma range_accuracy_of_epoch :
  0.2 < Closed.accuracy_of_epoch epoch <= 0.95.
Proof.
  unfold Closed.accuracy_of_epoch.
  assert (H : -0.5 < Rlog10 (3 - 0.025 * epoch) < 0.5)
    by (apply Rlog10_within_half; nra).
  pose proof (pow2_ge_0 (Rlog10 (3 - 0.025 * epoch))). nra.
Qed.

Lemma range_loss_of_epoch : 3 < Closed.loss_of_epoch epoch <= 10.
Proof.
  unfold Closed.loss_of_epoch.
  pose proof (exp_pos (-0.05 * epoch)).
  assert (exp (-0.05 * epoch) <= 1).
  { rewrite <- exp_0. destruct (Req_dec epoch 0) as [-> | Hne].
    - right. f_equal. lra.
    - left. apply exp_increasing. lra. }
  lra.
Qed.

Lemma range_loss_of_lr : 0.6 <= Closed.loss_of_lr lr <= 1.6.
Proof.
  unfold Closed.loss_of_lr. pose proof range_lr_log as Hz.
  assert (Hl : -1 <= Rlog10 (0.9 - Rlog10 lr)).
  { rewrite <- Rlog10_0_1. apply Rlog10_le; lra. }
  assert (Hu : Rlog10 (0.9 - Rlog10 lr) <= 1).
  { rewrite <- Rlog10_10. apply Rlog10_le; lra. }
  pose proof (pow2_ge_0 (Rlog10 (0.9 - Rlog10 lr))). nra.
Qed.

Lemma range_accuracy_of_lr : 0.62 < Closed.accuracy_of_lr lr <= 0.98.
Proof.
  unfold Closed.accuracy_of_lr. pose proof range_lr_log as Hz.
  assert (Hl : -0.6 < Rlog10 (0.7 - 0.5 * Rlog10 lr)).
  { apply Rlt_le_trans with (Rlog10 0.3); [apply Rlog10_0_3 |].
    apply Rlog10_le; lra. }
  assert (Hu : Rlog10 (0.7 - 0.5 * Rlog10 lr) < 0.5).
  { apply Rle_lt_trans with (Rlog10 2.7); [apply Rlog10_le; lra |].
    apply Rlog10_within_half; lra. }
  pose proof (pow2_ge_0 (Rlog10 (0.7 - 0.5 * Rlog10 lr))). nra.
Qed.

End Ranges.

(** X4: over the ranges of the notebook and of the pipeline's grid (epochs
    from 0 to 100, learning rates from [1e-4] to [10 ** 0.8]) the accuracy
    over the epochs lies in (0.2, 0.95], the loss over the epochs in (3, 10],
    the loss over the learning rate in [0.6, 1.6] and the accuracy over the
    learning rate in (0.62, 0.98]. *)
Theorem metric_ranges (epoch lr : R) :
  0 <= epoch <= 100 -> 0.0001 <= lr <= pow10 0.8 ->
  (Np.lt (Fin 0.2) (accuracy_of_epoch (Fin epoch)) /\
   np_le (accuracy_of_epoch (Fin epoch)) (Fin 0.95)) /\
  (Np.lt (Fin 3) (loss_of_epoch (Fin epoch)) /\
   np_le (loss_of_epoch (Fin epoch)) (Fin 10)) /\
  (np_le (Fin 0.6) (loss_of_lr (Fin lr)) /\
   np_le (loss_of_lr (Fin lr)) (Fin 1.6)) /\
  (Np.lt (Fin 0.62) (accuracy_of_lr (Fin lr)) /\
   np_le (accuracy_of_lr (Fin lr)) (Fin 0.98)).
Proof.
  intros He Hl.
  rewrite accuracy_of_epoch_fin by now apply range_epoch_domain.
  rewrite loss_of_epoch_fin.
  rewrite loss_of_lr_fin by now apply range_lr_domain.
  rewrite accuracy_of_lr_fin
    by now apply loss_of_lr_domain_accuracy, range_lr_domain.
  cbn [Np.lt np_le].
  pose proof (range_accuracy_of_epoch epoch He).
  pose proof (range_loss_of_epoch epoch He).
  pose proof (range_loss_of_lr lr Hl).
  pose proof (range_accuracy_of_lr lr Hl).
  repeat apply conj; lra.
Qed.

Lemma in_lr_range_0_001 : 0.0001 <= 0.001 <= pow10 0.8.
Proof.
  split; [lra |]. left.
  apply Rlt_trans with (pow10 0); [rewrite pow10_0; lra |].
  apply pow10_increasing. lra.
Qed.

Lemma metric_ranges_witness :
  Np.lt (Fin 0.2) (accuracy_of_epoch (Fin 20)) /\
  np_le (loss_of_lr (Fin 0.001)) (Fin 1.6).
Proof.
  destruct (metric_ranges 20 0.001 ltac:(lra) in_lr_range_0_001)
    as ((Ha & _) & _ & (_ & Hl) & _).
  split; [exact Ha | exact Hl].
Defined.

(** ** The arrays of the notebook *)

Lemma length_arange (start step : R) (len : nat) :
  List.length (arange start step len) = len.
Proof. unfold arange. now rewrite length_map, length_seq. Qed.

Lemma length_logspace (start stop : R) (num : nat) :
  List.length (logspace start stop num) = num.
Proof. unfold logspace. now rewrite length_map, length_seq. Qed.

(** Indexing an array computed element by element from [np.arange]. *)
Lemma element_map_arange (f : npfloat -> npfloat) (start step : R)
  (len k : nat) :
  (k < len)%nat ->
  element (map f (arange start step len)) k = f (Fin (start + INR k * step)).
Proof.
  intros Hk. unfold element, arange. rewrite map_map.
  set (F := fun i : nat => f (Fin (start + INR i * step))).
  rewrite nth_indep with (d' := F 0%nat)
    by now rewrite length_map, length_seq.
  rewrite map_nth, seq_nth by exact Hk. reflexivity.
Qed.

(** X5: every curve the three cells give to [plt.plot] has as many ordinates
    as abscissas (100, 100 and 50 points) and all its ordinates are finite
    reals: the ranges chosen for the threshold, the epochs and the learning
    rate stay inside the domains of the logarithms. *)
Theorem notebook_curves_well_formed (g : namespace) :
  (curves_finite (snd (cell_threshold g)) /\
   Forall (fun c => same_length c /\ List.length (snd c) = 100%nat)
          (snd (cell_threshold g))) /\
  (curves_finite (snd (cell_epoch g)) /\
   Forall (fun c => same_length c /\ List.length (snd c) = 100%nat)
          (snd (cell_epoch g))) /\
  (curves_finite (snd (cell_lr g)) /\
   Forall (fun c => same_length c /\ List.length (snd c) = 50%nat)
          (snd (cell_lr g))).
Proof.
  repeat apply conj.
  - apply cell_threshold_finite.
  - unfold cell_threshold. cbn [snd].
    apply Forall_cons; [| apply Forall_cons; [| apply Forall_nil]];
      unfold same_length; cbn [fst snd];
      now rewrite !length_map, !length_arange.
  - apply cell_epoch_finite.
  - unfold cell_epoch. cbn [snd].
    apply Forall_cons; [| apply Forall_cons; [| apply Forall_nil]];
      unfold same_length; cbn [fst snd];
      now rewrite !length_map, !length_arange.
  - apply cell_lr_finite.
  - unfold cell_lr. cbn [snd].
    apply Forall_cons; [| apply Forall_cons; [| apply Forall_nil]];
      unfold same_length; cbn [fst snd];
      now rewrite !length_map, !length_logspace.
Qed.

Lemma INR_lt_100 (k : nat) : (k < 100)%nat -> 0 <= INR k <= 99.
Proof.
  intros H. apply INR_bounds in H.
  replace (INR 100) with 100 in H by (simpl; lra). lra.
Qed.

(** X6: in the cell of the epochs the array [loss] decreases strictly from
    each index to the next ones, while the array [accuracy] increases
    strictly up to index 80 and decreases strictly after it: the peak the
    notebook attributes to overfitting. *)
Theorem cell_epoch_peak (g : namespace) :
  exists loss accuracy : array,
    fst (cell_epoch g) "loss"%string = Some loss /\
    fst (cell_epoch g) "accuracy"%string = Some accuracy /\
    element accuracy 80 = Fin 0.95 /\
    forall i j : nat, (i < j)%nat -> (j < 100)%nat ->
      Np.lt (element loss j) (element loss i) /\
      ((j <= 80)%nat -> Np.lt (element accuracy i) (element accuracy j)) /\
      ((80 <= i)%nat -> Np.lt (element accuracy j) (element accuracy i)).
Proof.
  eexists. eexists. split; [reflexivity |]. split; [reflexivity |].
  split.
  - rewrite element_map_arange by lia.
    rewrite accuracy_of_epoch_fin by (unfold accuracy_of_epoch_domain; simpl; lra).
    f_equal. rewrite <- accuracy_closed_peak. f_equal. simpl. lra.
  - intros i j Hij Hj.
    assert (Hi : (i < 100)%nat) by lia.
    rewrite !element_map_arange by assumption.
    pose proof (INR_lt_100 i Hi) as Bi. pose proof (INR_lt_100 j Hj) as Bj.
    assert (Hlt : INR i < INR j) by now apply lt_INR.
    rewrite !loss_of_epoch_fin.
    rewrite !accuracy_of_epoch_fin by (unfold accuracy_of_epoch_domain; lra).
    cbn [Np.lt]. repeat apply conj.
    + apply loss_closed_decreasing. lra.
    + intros H80. apply le_INR in H80.
      replace (INR 80) with 80 in H80 by (simpl; lra).
      apply accuracy_closed_rising; lra.
    + intros H80. apply le_INR in H80.
      replace (INR 80) with 80 in H80 by (simpl; lra).
      apply accuracy_closed_falling; lra.
Qed.

(** ** The names the cells bind *)



(** ** The F1 score as a mean *)

Lemma harmonic_bounds (p r : R) :
  0 < p -> 0 < r ->
  Rmin p r <= 2 * p * r / (p + r) <= Rmax p r /\
  2 * p * r / (p + r) <= (p + r) / 2.
Proof.
  intros Hp Hr.
  assert (Hs : 0 < p + r) by lra.
  assert (Hi : 0 < / (p + r)) by now apply Rinv_0_lt_compat.
  assert (Hlo : forall m, m <= p -> m <= r -> 0 <= m ->
            m <= 2 * p * r / (p + r)).
  { intros m Hmp Hmr Hm0.
    apply (Rmult_le_reg_r (p + r)); [exact Hs |].
    replace (2 * p * r / (p + r) * (p + r)) with (2 * p * r) by (field; lra).
    nra. }
  assert (Hhi : forall m, p <= m -> r <= m ->
            2 * p * r / (p + r) <= m).
  { intros m Hmp Hmr.
    apply (Rmult_le_reg_r (p + r)); [exact Hs |].
    replace (2 * p * r / (p + r) * (p + r)) with (2 * p * r) by (field; lra).
    nra. }
  repeat apply conj.
  - apply Hlo; [apply Rmin_l | apply Rmin_r |].
    unfold Rmin. destruct (Rle_dec p r); lra.
  - apply Hhi; [apply Rmax_l | apply Rmax_r].
  - apply (Rmult_le_reg_r (p + r)); [exact Hs |].
    replace (2 * p * r / (p + r) * (p + r)) with (2 * p * r) by (field; lra).
    pose proof (pow2_ge_0 (p - r)). nra.
Qed.

(** X9: for a positive precision and a positive recall the F1 score is
    returned without error, is the same when the two are exchanged, lies
    between the smaller and the larger of the two, and is at most their
    arithmetic mean. *)
Theorem f1_is_a_mean (p r : R) :
  0 < p -> 0 < r ->
  exists h : R,
    f1 (Fin p) (Fin r) = Returns (Fin h) /\
    f1 (Fin r) (Fin p) = Returns (Fin h) /\
    Rmin p r <= h <= Rmax p r /\
    h <= (p + r) / 2.
Proof.
  intros Hp Hr. exists (2 * p * r / (p + r)).
  destruct (harmonic_bounds p r Hp Hr) as (Hb & Hm).
  repeat apply conj; try lra.
  - apply f1_defined. lra.
  - rewrite f1_defined by lra. do 2 f_equal. field. lra.
Qed.

Lemma f1_is_a_mean_witness :
  exists h : R,
    f1 (Fin 0.9) (Fin 0.6) = Returns (Fin h) /\
    f1 (Fin 0.6) (Fin 0.9) = Returns (Fin h) /\
    Rmin 0.9 0.6 <= h <= Rmax 0.9 0.6 /\
    h <= (0.9 + 0.6) / 2.
Proof.
  apply f1_is_a_mean; lra.
Defined.

(** ** The rates over the ranges *)

(** X10: with the default weights, for a threshold of [0, 1], an epoch from
    0 to 100 and a learning rate from [1e-4] to [10 ** 0.8], the evaluation
    returns a result whose precision, recall, accuracy and F1 score lie
    strictly between 0 and 1 and whose loss is positive; the F1 score never
    divides by zero there. *)
Theorem evaluate_rates_valid (p : TuningParameters) :
  0 <= threshold p <= 1 ->
  0 <= epoch_count p <= 100 ->
  0.0001 <= learning_rate p <= pow10 0.8 ->
  exists m, evaluate p default_weights = Returns m /\ rates_valid m.
Proof.
  intros _ He Hl.
  pose proof (range_epoch_domain _ He) as Hde.
  pose proof (range_lr_domain _ Hl) as Hdl.
  pose proof (accuracy_fin default_weights _ _ Hde Hdl) as Ha.
  pose proof (precision_fin default_weights (threshold p) _ _ Hde Hdl) as Hp.
  pose proof (recall_fin default_weights (threshold p) _ _ Hde Hdl) as Hr.
  pose proof (loss_fin default_weights (epoch_count p) _ Hdl) as Hlo.
  cbn [default_weights k_accuracy k_precision k_recall k_loss]
    in Ha, Hp, Hr, Hlo.
  pose proof (precision_closed_bounds (threshold p)) as Bp.
  pose proof (recall_closed_bounds (threshold p)) as Br.
  pose proof (range_accuracy_of_epoch _ He) as Bae.
  pose proof (range_accuracy_of_lr _ Hl) as Bal.
  pose proof (range_loss_of_epoch _ He) as Ble.
  pose proof (range_loss_of_lr _ Hl) as Bll.
  set (P := Closed.precision_of_threshold (threshold p)) in *.
  set (Rc := Closed.recall_of_threshold (threshold p)) in *.
  set (Ae := Closed.accuracy_of_epoch (epoch_count p)) in *.
  set (Al := Closed.accuracy_of_lr (learning_rate p)) in *.
  set (Le := Closed.loss_of_epoch (epoch_count p)) in *.
  set (Ll := Closed.loss_of_lr (learning_rate p)) in *.
  assert (Bacc : 0 < 1 * Ae * Al < 1) by nra.
  assert (Bprec : 0 < 1 * P * (1 * Ae * Al) < 1) by nra.
  assert (Brec : 0 < 1 * Rc * (1 * Ae * Al) < 1) by nra.
  assert (Bloss : 0 < 1 * Le * Ll) by nra.
  destruct (harmonic_bounds _ _ (proj1 Bprec) (proj1 Brec)) as ((Hmin & Hmax) & _).
  assert (Bf : 0 < 2 * (1 * P * (1 * Ae * Al)) * (1 * Rc * (1 * Ae * Al))
                   / (1 * P * (1 * Ae * Al) + 1 * Rc * (1 * Ae * Al)) < 1).
  { split.
    - eapply Rlt_le_trans; [| exact Hmin].
      unfold Rmin. destruct (Rle_dec _ _); lra.
    - eapply Rle_lt_trans; [exact Hmax |].
      unfold Rmax. destruct (Rle_dec _ _); lra. }
  rewrite evaluate_in_domain by assumption. cbv zeta.
  rewrite Hp, Hr, Hlo, Ha.
  rewrite f1_defined by lra.
  eexists. split; [reflexivity |].
  unfold rates_valid, in_open_unit. cbn [precision_value recall_value
    loss_value accuracy_value f1_value Np.lt].
  repeat apply conj; lra.
Qed.

Lemma evaluate_rates_valid_witness :
  exists m,
    evaluate {| threshold := 0.5; epoch_count := 20; learning_rate := 0.001 |}
             default_weights = Returns m /\
    rates_valid m.
Proof.
  apply evaluate_rates_valid; cbn [threshold epoch_count learning_rate].
  - lra.
  - lra.
  - exact in_lr_range_0_001.
Defined.

(** ** Enumeration of the grid *)

Lemma NoDup_map_injective {A B : Type} (f : A -> B) (l : list A) :
  (forall x y, f x = f y -> x = y) -> NoDup l -> NoDup (map f l).
Proof.
  intros Hinj Hl. induction Hl as [| a l Hout _ IH]; cbn; constructor.
  - intros Hin. apply in_map_iff in Hin as (x & Hx & Hin).
    apply Hinj in Hx. now subst.
  - exact IH.
Qed.

Lemma NoDup_flat_map {A B : Type} (f : A -> list B) (l : list A) :
  NoDup l ->
  (forall a, NoDup (f a)) ->
  (forall a b x, In x (f a) -> In x (f b) -> a = b) ->
  NoDup (flat_map f l).
Proof.
  intros Hl Hf Hdisj. induction Hl as [| a l Hout _ IH]; cbn.
  - constructor.
  - apply NoDup_app; [apply Hf | exact IH |].
    intros x Hxa Hxl. apply in_flat_map in Hxl as (b & Hb & Hxb).
    rewrite (Hdisj a b x Hxa Hxb) in Hout. contradiction.
Qed.

Lemma length_flat_map_const {A B : Type} (f : A -> list B) (l : list A)
  (n : nat) :
  (forall a, List.length (f a) = n) ->
  List.length (flat_map f l) = (List.length l * n)%nat.
Proof.
  intros Hf. induction l as [| a l IH]; cbn; [reflexivity |].
  now rewrite length_app, Hf, IH.
Qed.

(** X11: the grid holds exactly the combinations of one value of each choice:
    a point is in the grid if and only if each of its three parameters is
    among the values chosen for it; the grid has as many points as the
    product of the numbers of values, each once when no value is repeated;
    and the 8 points of the pipeline's grid fit in [max_total_runs]. *)
Theorem grid_enumerates (thrs epochs lrs : list R) (p : TuningParameters) :
  (In p (GridParameterSampling thrs epochs lrs) <->
   In (threshold p) thrs /\ In (epoch_count p) epochs /\
   In (learning_rate p) lrs) /\
  List.length (GridParameterSampling thrs epochs lrs)
  = (List.length thrs * (List.length epochs * List.length lrs))%nat /\
  (NoDup thrs -> NoDup epochs -> NoDup lrs ->
   NoDup (GridParameterSampling thrs epochs lrs)) /\
  (List.length ps = 8 /\ List.length ps <= max_total_runs)%nat.
Proof.
  unfold GridParameterSampling. repeat apply conj.
  - intros H. apply in_flat_map in H as (t & Ht & H).
    apply in_flat_map in H as (e & He & H).
    apply in_map_iff in H as (l & <- & Hl). cbn. auto.
  - intros (Ht & He & Hl).
    apply in_flat_map. exists (threshold p). split; [exact Ht |].
    apply in_flat_map. exists (epoch_count p). split; [exact He |].
    apply in_map_iff. exists (learning_rate p). split; [| exact Hl].
    now destruct p.
  - apply length_flat_map_const. intros t.
    apply length_flat_map_const. intros e. apply length_map.
  - intros Ht He Hl. apply NoDup_flat_map; [exact Ht | |].
    + intros t. apply NoDup_flat_map; [exact He | |].
      * intros e. apply NoDup_map_injective; [| exact Hl].
        intros x y H. now injection H.
      * intros e e' x Hx Hx'.
        apply in_map_iff in Hx as (l & <- & _).
        apply in_map_iff in Hx' as (l' & H & _). now injection H.
    + intros t t' x Hx Hx'.
      apply in_flat_map in Hx as (e & _ & Hx).
      apply in_map_iff in Hx as (l & <- & _).
      apply in_flat_map in Hx' as (e' & _ & Hx').
      apply in_map_iff in Hx' as (l' & H & _). now injection H.
  - reflexivity.
  - unfold max_total_runs. cbn. lia.
Qed.

Lemma grid_enumerates_witness :
  NoDup (GridParameterSampling [0.05; 0.20] [1; 20] [0.0001; 0.001]).
Proof.
  apply (proj1 (proj2 (proj2
           (grid_enumerates [0.05; 0.20] [1; 20] [0.0001; 0.001]
              {| threshold := 0; epoch_count := 0; learning_rate := 0 |}))));
    (constructor; [cbn; intros [H | []]; lra |]);
    (constructor; [intros [] | constructor]).
Defined.

(** ** The learning rates and their logarithms *)

Lemma element_map_logspace (f : npfloat -> npfloat) (start stop : R)
  (num k : nat) :
  (k < num)%nat ->
  element (map f (logspace start stop num)) k
  = f (Fin (pow10 (start + INR k * ((stop - start) / INR (num - 1))))).
Proof.
  intros Hk. unfold element, logspace. rewrite map_map.
  set (F := fun i : nat =>
              f (Fin (pow10 (start + INR i * ((stop - start) / INR (num - 1)))))).
  rewrite nth_indep with (d' := F 0%nat)
    by now rewrite length_map, length_seq.
  rewrite map_nth, seq_nth by exact Hk. reflexivity.
Qed.

Lemma pow10_minus_4 : pow10 (-4) = 0.0001.
Proof.
  symmetry. apply Rlog10_eq_pow10; [lra | apply Rlog10_0_0001].
Qed.

(** X12: in the cell of the learning rate [np.log10] undoes [np.logspace]:
    the array [z] holds the 50 evenly spaced exponents [-4 + k * 4.8 / 49],
    from -4 to 0.8 and strictly increasing, and [lr] runs from [1e-4] to
    [10 ** 0.8]. *)
Theorem cell_lr_exponents (g : namespace) :
  exists lr z : array,
    fst (cell_lr g) "lr"%string = Some lr /\
    fst (cell_lr g) "z"%string = Some z /\
    element lr 0 = Fin 0.0001 /\ element lr 49 = Fin (pow10 0.8) /\
    element z 0 = Fin (-4) /\ element z 49 = Fin 0.8 /\
    forall k : nat, (k < 50)%nat ->
      element lr k = Fin (pow10 (-4 + INR k * (4.8 / 49))) /\
      element z k = Fin (-4 + INR k * (4.8 / 49)) /\
      ((S k < 50)%nat -> Np.lt (element z k) (element z (S k))).
Proof.
  assert (Hy : forall k,
            -4 + INR k * ((0.8 - -4) / INR (50 - 1))
            = -4 + INR k * (4.8 / 49)).
  { intros k. replace (INR (50 - 1)) with 49 by (simpl; lra). lra. }
  assert (Hlr : forall k, (k < 50)%nat ->
            element (logspace (-4) 0.8 50) k
            = Fin (pow10 (-4 + INR k * (4.8 / 49)))).
  { intros k Hk. rewrite <- (map_id (logspace (-4) 0.8 50)).
    rewrite (element_map_logspace (fun x => x)) by exact Hk.
    now rewrite Hy. }
  assert (Hz : forall k, (k < 50)%nat ->
            element (map Np.log10 (logspace (-4) 0.8 50)) k
            = Fin (-4 + INR k * (4.8 / 49))).
  { intros k Hk. rewrite element_map_logspace by exact Hk.
    rewrite log10_fin by apply pow10_pos.
    now rewrite Rlog10_pow10, Hy. }
  eexists. eexists. split; [reflexivity |]. split; [reflexivity |].
  repeat apply conj.
  - rewrite Hlr by lia. rewrite <- pow10_minus_4. do 2 f_equal. simpl. lra.
  - rewrite Hlr by lia. do 2 f_equal. simpl. lra.
  - rewrite Hz by lia. f_equal. simpl. lra.
  - rewrite Hz by lia. f_equal. simpl. lra.
  - intros k Hk. repeat apply conj.
    + now apply Hlr.
    + now apply Hz.
    + intros HS. rewrite !Hz by assumption. cbn [Np.lt].
      rewrite S_INR. lra.
Qed.

(** ** Competing optima *)

(** X13: the learning rate of the least loss, [10 ** -0.1], is larger than
    the one of the largest accuracy, [10 ** -0.6], and between the two, from
    a learning rate to one at least 1.1 times larger, the loss and the
    accuracy both fall strictly: no learning rate is best for both. *)
Theorem lr_tradeoff (lr1 lr2 : R) :
  pow10 (-0.6) <= lr1 -> 1.1 * lr1 <= lr2 -> lr2 <= pow10 (-0.1) ->
  pow10 (-0.6) < pow10 (-0.1) /\
  Np.lt (loss_of_lr (Fin lr2)) (loss_of_lr (Fin lr1)) /\
  Np.lt (accuracy_of_lr (Fin lr2)) (accuracy_of_lr (Fin lr1)).
Proof.
  intros Hlo Hsep Hhi.
  pose proof (pow10_pos (-0.6)) as Hp.
  assert (Hlt : lr1 < lr2) by lra.
  assert (H01 : pow10 (-0.1) < pow10 0.9) by (apply pow10_increasing; lra).
  assert (H09 : pow10 0.9 < pow10 1.4) by (apply pow10_increasing; lra).
  assert (Hd : forall lr, pow10 (-0.6) <= lr <= pow10 (-0.1) ->
            loss_of_lr_domain lr).
  { intros lr [Ha Hb]. split; [lra |]. apply Rlog10_lt_pow10; lra. }
  rewrite !loss_of_lr_fin by (apply Hd; lra).
  rewrite !accuracy_of_lr_fin
    by (apply loss_of_lr_domain_accuracy, Hd; lra).
  cbn [Np.lt]. repeat apply conj.
  - apply pow10_increasing. lra.
  - apply loss_lr_closed_falling; lra.
  - apply accuracy_lr_closed_falling; lra.
Qed.

Lemma lr_tradeoff_witness :
  Np.lt (loss_of_lr (Fin (pow10 (-0.2)))) (loss_of_lr (Fin (pow10 (-0.5)))) /\
  Np.lt (accuracy_of_lr (Fin (pow10 (-0.2))))
        (accuracy_of_lr (Fin (pow10 (-0.5)))).
Proof.
  assert (H11 : 1.1 < pow10 0.3).
  { apply Rlog10_lt_pow10; [lra |].
    replace 0.3 with (INR 3 / INR 10) by (simpl; lra).
    apply Rlog10_lt_ratio; [lra | lia | lra]. }
  assert (Hmul : pow10 (-0.2) = pow10 0.3 * pow10 (-0.5)).
  { unfold pow10. rewrite <- Rpower_plus. f_equal. lra. }
  pose proof (pow10_pos (-0.5)) as Hp.
  apply (lr_tradeoff (pow10 (-0.5)) (pow10 (-0.2))).
  - left. apply pow10_increasing. lra.
  - rewrite Hmul. nra.
  - left. apply pow10_increasing. lra.
Defined.

(** X14: with the default weights, over epochs from 0 to 100 and learning
    rates from [1e-4] to [10 ** 0.8], the multivariate accuracy is at most
    [0.95 * 0.98 = 0.931], and at epoch 80 with the learning rate
    [10 ** -0.6] it is within 0.0001 of that bound. *)
Theorem accuracy_optimum (epoch lr : R) :
  0 <= epoch <= 100 -> 0.0001 <= lr <= pow10 0.8 ->
  np_le (accuracy default_weights (Fin epoch) (Fin lr)) (Fin 0.931) /\
  Np.lt (Fin 0.9309) (accuracy default_weights (Fin 80) (Fin (pow10 (-0.6)))).
Proof.
  intros He Hl.
  pose proof (range_epoch_domain _ He) as Hde.
  pose proof (range_lr_domain _ Hl) as Hdl.
  split.
  - rewrite (accuracy_fin default_weights _ _ Hde Hdl).
    cbn [default_weights k_accuracy np_le].
    pose proof (range_accuracy_of_epoch _ He) as Bae.
    pose proof (range_accuracy_of_lr _ Hl) as Bal.
    nra.
  - assert (H80 : accuracy_of_epoch_domain 80)
      by (unfold accuracy_of_epoch_domain; lra).
    assert (H06 : loss_of_lr_domain (pow10 (-0.6))).
    { split; [apply pow10_pos | rewrite Rlog10_pow10; lra]. }
    rewrite (accuracy_fin default_weights _ _ H80 H06).
    cbn [default_weights k_accuracy Np.lt].
    rewrite accuracy_closed_peak, accuracy_lr_closed_peak. lra.
Qed.

Lemma accuracy_optimum_witness :
  np_le (accuracy default_weights (Fin 20) (Fin 0.001)) (Fin 0.931).
Proof.
  apply (accuracy_optimum 20 0.001); [lra | exact in_lr_range_0_001].
Defined.

(** ** Negative accuracy *)

(** [0.25 ^ 5 < 10 ^ -3], so [log10 0.25 < -0.6]. *)
Lemma Rlog10_0_25 : Rlog10 0.25 < -0.6.
Proof.
  pose proof ln10_pos as H10.
  assert (H5 : INR 5 * ln 0.25 = ln (0.25 ^ 5))
    by (symmetry; apply ln_pow; lra).
  assert (H3 : ln (/ 10 ^ 3) = - (INR 3 * ln 10)).
  { rewrite ln_Rinv by (apply pow_lt; lra). now rewrite ln_pow by lra. }
  assert (Hlt : ln (0.25 ^ 5) < ln (/ 10 ^ 3)).
  { apply ln_increasing; [apply pow_lt; lra | lra]. }
  rewrite H3, <- H5 in Hlt. simpl INR in Hlt.
  unfold Rlog10.
  apply (Rmult_lt_reg_r (ln 10)); [exact H10 |].
  replace (ln 0.25 / ln 10 * ln 10) with (ln 0.25) by (field; lra). lra.
Qed.

(** X15: from epoch 110 up to the end of its domain at 120 the accuracy is
    below zero (a negative number, or [-inf] where rounding reaches the
    boundary): the function does not stay a rate there, and nothing signals
    it. *)
Theorem accuracy_of_epoch_negative (epoch : R) :
  110 <= epoch -> epoch < 120 ->
  Np.lt (accuracy_of_epoch (Fin epoch)) (Fin 0).
Proof.
  intros Hlo Hhi.
  rewrite accuracy_of_epoch_fin by (unfold accuracy_of_epoch_domain; lra).
  cbn [Np.lt]. unfold Closed.accuracy_of_epoch.
  assert (Hl : Rlog10 (3 - 0.025 * epoch) < -0.6).
  { apply Rle_lt_trans with (Rlog10 0.25); [| apply Rlog10_0_25].
    apply Rlog10_le; lra. }
  nra.
Qed.

Lemma accuracy_of_epoch_negative_witness :
  Np.lt (accuracy_of_epoch (Fin 115)) (Fin 0).
Proof.
  apply (accuracy_of_epoch_negative 115); lra.
Defined.

(** ** The code in binary64: edges and saturation *)

(** X16: in binary64, whatever conforming [np.exp] and [np.log10] are used,
    the expressions of the notebook return exactly 10 for the loss at epoch
    0 and 0.95 for the accuracy at epoch 80; at the edge of a domain they
    return [-inf] (accuracy at epoch 120, accuracy at learning rate 0) or
    [inf] (loss at learning rate 0), and [nan] beyond it (an epoch with
    [3 - 0.025 * epoch] negative, a negative learning rate); where [np.exp]
    overflows the recall is exactly 0 and the loss over the epochs is [inf],
    and where it underflows the precision is exactly 1 and the loss exactly
    3. *)
Theorem binary64_edge_values (m : F64.libm) (thr epoch lr : float) :
  F64.conforming m ->
  (F64.loss_of_epoch m 0 = 10 /\
   F64.accuracy_of_epoch m 80 = 0.95 /\
   F64.accuracy_of_epoch m 120 = neg_infinity /\
   F64.loss_of_lr m 0 = infinity /\
   F64.accuracy_of_lr m 0 = neg_infinity)%float /\
  ((710 <=? 20 * thr)%float = true ->
   F64.recall_of_threshold m thr = 0%float) /\
  ((-20 * thr <=? -746)%float = true ->
   F64.precision_of_threshold m thr = 1%float) /\
  ((710 <=? -0.05 * epoch)%float = true ->
   F64.loss_of_epoch m epoch = infinity) /\
  ((-0.05 * epoch <=? -746)%float = true ->
   F64.loss_of_epoch m epoch = 3%float) /\
  ((3 - 0.025 * epoch <? 0)%float = true ->
   F64.accuracy_of_epoch m epoch = nan) /\
  ((lr <? 0)%float = true ->
   F64.loss_of_lr m lr = nan /\ F64.accuracy_of_lr m lr = nan).
Proof.
  intros Hm.
  assert (H0 : (-0.05 * 0 = neg_zero)%float) by reflexivity.
  assert (H80 : (3 - 0.025 * 80 = 1)%float) by reflexivity.
  repeat apply conj.
  - unfold F64.loss_of_epoch. rewrite H0, (F64.exp_neg_zero m Hm). reflexivity.
  - unfold F64.accuracy_of_epoch. rewrite H80, (F64.log10_one m Hm).
    reflexivity.
  - apply f64_accuracy_of_epoch_zero; [exact Hm | reflexivity].
  - unfold F64.loss_of_lr. cbv zeta. rewrite (F64.log10_zero m Hm).
    change (0.9 - neg_infinity)%float with infinity.
    rewrite (F64.log10_infinity m Hm). reflexivity.
  - unfold F64.accuracy_of_lr. cbv zeta. rewrite (F64.log10_zero m Hm).
    change (0.7 - 0.5 * neg_infinity)%float with infinity.
    rewrite (F64.log10_infinity m Hm). reflexivity.
  - intros H. unfold F64.recall_of_threshold.
    rewrite (F64.exp_overflow m Hm _ H). reflexivity.
  - intros H. unfold F64.precision_of_threshold.
    rewrite (F64.exp_underflow m Hm _ H). reflexivity.
  - intros H. unfold F64.loss_of_epoch.
    rewrite (F64.exp_overflow m Hm _ H). reflexivity.
  - intros H. unfold F64.loss_of_epoch.
    rewrite (F64.exp_underflow m Hm _ H). reflexivity.
  - intros H. now apply f64_accuracy_of_epoch_negative.
  - intros H. unfold F64.loss_of_lr, F64.accuracy_of_lr. cbv zeta.
    rewrite (F64.log10_negative m Hm _ H).
    change (0.9 - nan)%float with nan.
    change (0.7 - 0.5 * nan)%float with nan.
    rewrite (F64.log10_nan m Hm). split; reflexivity.
Qed.

Lemma binary64_edge_values_witness :
  F64.recall_of_threshold F64.coarse 1000%float = 0%float /\
  F64.loss_of_epoch F64.coarse 20000%float = 3%float /\
  F64.loss_of_lr F64.coarse (-1)%float = nan.
Proof.
  destruct (binary64_edge_values F64.coarse 1000 20000 (-1) coarse_conforming)
    as (_ & Hr & _ & _ & Hl & _ & Hn).
  repeat apply conj.
  - apply Hr. reflexivity.
  - apply Hl. reflexivity.
  - apply Hn. reflexivity.
Defined.
